(** * The libvirt connection wrapper of virt-handler (package virtwrap/libvirt)

    A shallow embedding of [LibvirtConnection] and of the functions that keep
    it connected: [reconnectIfNecessary], [checkConnectionLost], the wrapped
    client operations, the watchdog started by [MonitorConnection], [Close]
    and the dialer [NewConnection].

    The Go code runs against three things it does not own: the libvirt client
    library, the closures that watchers register as event callbacks, and the
    clock.  Each function of the model takes what the client answers as an
    argument, the closures are a section variable, and the clock is logical.
    A goroutine is modelled on its own: taking a mutex that is held does not
    return, it yields [Blocked]. *)

From stdpp Require Import base list strings.
From Stdlib Require Import ZArith Lia.
From Equations Require Import Equations.

Local Open Scope Z_scope.
Local Open Scope string_scope.
Local Open Scope list_scope.

(** ** The client library, as far as the wrapper looks at it *)

Module libvirt_go.

(** [type ErrorNumber int], with the values of libvirt's [virErrorNumber]
    for the codes the wrapper names. *)
Definition ErrorNumber := Z.
Definition ERR_OK : ErrorNumber := 0.
Definition ERR_INTERNAL_ERROR : ErrorNumber := 1.
Definition ERR_NO_MEMORY : ErrorNumber := 2.
Definition ERR_INVALID_CONN : ErrorNumber := 6.
Definition ERR_SYSTEM_ERROR : ErrorNumber := 38.
Definition ERR_RPC : ErrorNumber := 39.
Definition ERR_NO_DOMAIN : ErrorNumber := 42.
Definition ERR_AUTH_FAILED : ErrorNumber := 45.
Definition ERR_AUTH_CANCELLED : ErrorNumber := 79.

(** [type Error struct], what [GetLastError] hands back. *)
Record Error := { Code : ErrorNumber; Message : string }.

(** The objects of the client are C handles; the model names them by a
    number.  A Go pointer to one is an [option], [None] being [nil]. *)
Definition Connect := nat.
Definition Domain := nat.
Definition Secret := nat.
Definition Stream := nat.
Record DomainEventLifecycle := { Event : Z; Detail : Z }.

(** [type DomainEventLifecycleCallback func(c *Connect, d *Domain, event
    *DomainEventLifecycle)]: a function value, named here by the identity of
    its closure. *)
Definition DomainEventLifecycleCallback := nat.

Definition ConnectListAllDomainsFlags := Z.
Definition CONNECT_LIST_DOMAINS_ACTIVE : ConnectListAllDomainsFlags := 1.
Definition CONNECT_LIST_DOMAINS_INACTIVE : ConnectListAllDomainsFlags := 2.

(** [type ConnectCredentialType int] and [type ConnectCredential struct],
    with libvirt's values for the two kinds of credential the wrapper
    answers. *)
Definition ConnectCredentialType := Z.
Definition CRED_AUTHNAME : ConnectCredentialType := 2.
Definition CRED_PASSPHRASE : ConnectCredentialType := 5.

Record ConnectCredential := {
  Type' : ConnectCredentialType;
  Prompt : string;
  Challenge : string;
  DefResult : string;
  Result : string;
  ResultLen : Z
}.

(** [type DomainState int], with libvirt's values. *)
Definition DomainState := Z.
Definition DOMAIN_NOSTATE : DomainState := 0.
Definition DOMAIN_RUNNING : DomainState := 1.
Definition DOMAIN_BLOCKED : DomainState := 2.
Definition DOMAIN_PAUSED : DomainState := 3.
Definition DOMAIN_SHUTDOWN : DomainState := 4.
Definition DOMAIN_SHUTOFF : DomainState := 5.
Definition DOMAIN_CRASHED : DomainState := 6.
Definition DOMAIN_PMSUSPENDED : DomainState := 7.

End libvirt_go.

(** ** Go values the wrapper handles *)

(** The [error] interface.  [Errorf format arg] is the value of
    [fmt.Errorf(format, arg)] with one [%v] verb; the argument is kept so that
    what an error was built from stays visible. *)
Inductive error_value :=
| LibvirtError (e : libvirt_go.Error)
| ErrWaitTimeout
| Errorf (format : string) (arg : error_value).

Definition error := option error_value.

(** A value of type [interface{}] as [RegisterGuestEventLifecycle] receives
    it: [nil], a value whose dynamic type is
    [libvirt_go.DomainEventLifecycleCallback], or a value of some other
    dynamic type. *)
Inductive interface :=
| nil_interface
| LifecycleCallback (cb : libvirt_go.DomainEventLifecycleCallback)
| OtherValue (dynamic_type : string).

(** [chan struct{}]: the zero value is the nil channel. *)
Inductive chan := ChanNil | ChanOpen | ChanClosed.

(** [sync.Mutex]. *)
Inductive Mutex := Unlocked | Locked.

(** [type LibvirtConnection struct]. *)
Record LibvirtConnection := {
  Connect : option libvirt_go.Connect;
  user : string;
  pass : string;
  uri : string;
  alive : bool;
  stop : chan;
  reconnectLock : Mutex;
  callbacks : list libvirt_go.DomainEventLifecycleCallback
}.

Definition with_Connect (c : option libvirt_go.Connect) (l : LibvirtConnection) :=
  {| Connect := c; user := user l; pass := pass l; uri := uri l;
     alive := alive l; stop := stop l; reconnectLock := reconnectLock l;
     callbacks := callbacks l |}.

Definition with_alive (b : bool) (l : LibvirtConnection) :=
  {| Connect := Connect l; user := user l; pass := pass l; uri := uri l;
     alive := b; stop := stop l; reconnectLock := reconnectLock l;
     callbacks := callbacks l |}.

Definition with_stop (c : chan) (l : LibvirtConnection) :=
  {| Connect := Connect l; user := user l; pass := pass l; uri := uri l;
     alive := alive l; stop := c; reconnectLock := reconnectLock l;
     callbacks := callbacks l |}.

Definition with_reconnectLock (m : Mutex) (l : LibvirtConnection) :=
  {| Connect := Connect l; user := user l; pass := pass l; uri := uri l;
     alive := alive l; stop := stop l; reconnectLock := m;
     callbacks := callbacks l |}.

Definition with_callbacks
    (cbs : list libvirt_go.DomainEventLifecycleCallback) (l : LibvirtConnection) :=
  {| Connect := Connect l; user := user l; pass := pass l; uri := uri l;
     alive := alive l; stop := stop l; reconnectLock := reconnectLock l;
     callbacks := cbs |}.

(** ** What a run leaves behind *)

(** The calls the wrapper makes on the client library. *)
Inductive ClientCall :=
| NewConnectWithAuth (uri user pass : string)
| GetLastError
| Connect_IsAlive
| Connect_Close
| Connect_NewStream (flags : Z)
| Connect_ListSecrets
| Connect_LookupSecretByUUIDString (uuid : string)
| Connect_LookupSecretByUsage (usageType : Z) (usageID : string)
| Connect_ListAllSecrets (flags : Z)
| Connect_SecretDefineXML (xml : string) (flags : Z)
| Connect_DomainEventLifecycleRegister (cb : libvirt_go.DomainEventLifecycleCallback)
| Connect_LookupDomainByName (name : string)
| Connect_DomainDefineXML (xml : string)
| Connect_ListAllDomains (flags : libvirt_go.ConnectListAllDomainsFlags).

(** What a goroutine does that others can see. *)
Inductive Event :=
| EvLock
| EvUnlock
| EvClient (call : ClientCall)
| EvCallback (cb : libvirt_go.DomainEventLifecycleCallback)
             (c : option libvirt_go.Connect)
             (d : option libvirt_go.Domain)
             (event : option libvirt_go.DomainEventLifecycle)
| EvLog (msg : string) (code : option libvirt_go.ErrorNumber)
| EvCloseChan.

(** The state a goroutine works on: the handle [l], the cells that escaped to
    the heap (a pointer is an index into [heap]), and the history of the run.
    Every event of the history carries the handle as it stood at the event:
    when the call was made, for a call; once the operation was done, for an
    operation on the mutex or on the channel. *)
Record State := {
  handle : LibvirtConnection;
  heap : list nat;
  trace : list (Event * LibvirtConnection)
}.

Definition with_handle (l : LibvirtConnection) (s : State) :=
  {| handle := l; heap := heap s; trace := trace s |}.

(** How a call ends: it returns, it panics, or the goroutine is parked on a
    mutex it cannot get. *)
Inductive Outcome (A : Type) :=
| Return (a : A)
| Panic (msg : string)
| Blocked.
Arguments Return {A} a.
Arguments Panic {A} msg.
Arguments Blocked {A}.

Definition M (A : Type) := State -> Outcome A * State.

#[global] Instance M_ret : MRet M := fun A a s => (Return a, s).

#[global] Instance M_bind : MBind M := fun A B k m s =>
  match m s with
  | (Return a, s') => k a s'
  | (Panic msg, s') => (Panic msg, s')
  | (Blocked, s') => (Blocked, s')
  end.

Definition get_handle : M LibvirtConnection := fun s => (Return (handle s), s).

Definition modify (f : LibvirtConnection -> LibvirtConnection) : M unit :=
  fun s => (Return tt, with_handle (f (handle s)) s).

Definition emit (e : Event) : M unit :=
  fun s => (Return tt,
            {| handle := handle s; heap := heap s;
               trace := trace s ++ [(e, handle s)] |}).

Definition panic {A} (msg : string) : M A := fun s => (Panic msg, s).

(** [defer d] in front of [body]: [d] runs when [body] returns and when it
    panics; a goroutine that is parked never gets to it.  The deferred calls of
    this package return nothing, so the results of [body] stand. *)
Definition defer {A} (d : M unit) (body : M A) : M A := fun s =>
  match body s with
  | (Return a, s') =>
      match d s' with
      | (Return _, s'') => (Return a, s'')
      | (Panic msg, s'') => (Panic msg, s'')
      | (Blocked, s'') => (Blocked, s'')
      end
  | (Panic msg, s') =>
      match d s' with
      | (Return _, s'') => (Panic msg, s'')
      | (Panic msg', s'') => (Panic msg', s'')
      | (Blocked, s'') => (Blocked, s'')
      end
  | (Blocked, s') => (Blocked, s')
  end.

(** [m.Lock()]: [sync.Mutex] is not reentrant. *)
Definition Lock : M unit := fun s =>
  match reconnectLock (handle s) with
  | Locked => (Blocked, s)
  | Unlocked => emit EvLock (with_handle (with_reconnectLock Locked (handle s)) s)
  end.

(** [m.Unlock()]. *)
Definition Unlock : M unit := fun s =>
  match reconnectLock (handle s) with
  | Unlocked => (Panic "sync: unlock of unlocked mutex", s)
  | Locked => emit EvUnlock (with_handle (with_reconnectLock Unlocked (handle s)) s)
  end.

(** Modelled from the spec: [errors.IsOk] of package virtwrap/errors, which is
    not among the sources.  The spec has the classifier return without effect
    when no error is present; the client reports that by an [Error] whose code
    is [ERR_OK]. *)
Definition IsOk (err : libvirt_go.Error) : bool :=
  (libvirt_go.Code err =? libvirt_go.ERR_OK)%Z.

(** What one [libvirt_go.NewConnectWithAuth] answers for a URI and the
    credentials its prompt callback supplies. *)
Definition Dialer := string -> string -> string -> option libvirt_go.Connect * error.

(** [func newConnection(uri, user, pass)]: one attempt through
    [libvirt_go.NewConnectWithAuth], whose answer is handed back as it is. *)
Definition newConnection (dial : Dialer) (uri user pass : string)
  : option libvirt_go.Connect * error :=
  dial uri user pass.

(** A call on the client library: it is recorded, and what the client answers
    is the result. *)
Definition client {A} (c : ClientCall) (answer : A) : M A :=
  emit (EvClient c);;
  mret answer.

Section Closures.

(** What a registered closure does when it is called.  It runs on the
    goroutine that calls it, on the state that goroutine has. *)
Variable closure :
  libvirt_go.DomainEventLifecycleCallback ->
  option libvirt_go.Connect -> option libvirt_go.Domain ->
  option libvirt_go.DomainEventLifecycle -> M unit.

(** The call [cb(c, d, event)]. *)
Definition call (cb : libvirt_go.DomainEventLifecycleCallback)
    (c : option libvirt_go.Connect) (d : option libvirt_go.Domain)
    (event : option libvirt_go.DomainEventLifecycle) : M unit :=
  emit (EvCallback cb c d event);;
  closure cb c d event.

(** [for _, cb := range cbs { cb(l.Connect, nil, nil) }] *)
Fixpoint notify (cbs : list libvirt_go.DomainEventLifecycleCallback) : M unit :=
  match cbs with
  | [] => mret tt
  | cb :: rest =>
      l ← get_handle;
      call cb (Connect l) None None;;
      notify rest
  end.

(** [func (l *LibvirtConnection) reconnectIfNecessary() (err error)] *)
Definition reconnectIfNecessary (dial : Dialer) : M error :=
  Lock;;
  defer Unlock (
    l ← get_handle;
    if negb (alive l) then
      r ← client (NewConnectWithAuth (uri l) (user l) (pass l))
                 (newConnection dial (uri l) (user l) (pass l));
      modify (with_Connect r.1);;
      match r.2 with
      | Some e => mret (Some e)
      | None =>
          modify (with_alive true);;
          l' ← get_handle;
          let cbs := callbacks l' in
          modify (with_callbacks []);;
          notify cbs;;
          mret None
      end
    else mret None).

(** The codes of the [switch] in [checkConnectionLost], in the order of its
    [case]. *)
Definition connection_lost_codes : list libvirt_go.ErrorNumber :=
  [ libvirt_go.ERR_INTERNAL_ERROR; libvirt_go.ERR_INVALID_CONN;
    libvirt_go.ERR_AUTH_CANCELLED; libvirt_go.ERR_NO_MEMORY;
    libvirt_go.ERR_AUTH_FAILED; libvirt_go.ERR_SYSTEM_ERROR;
    libvirt_go.ERR_RPC ].

(** [func (l *LibvirtConnection) checkConnectionLost()]; [lastError] is what
    [libvirt_go.GetLastError()] answers. *)
Definition checkConnectionLost (lastError : libvirt_go.Error) : M unit :=
  Lock;;
  defer Unlock (
    err ← client GetLastError lastError;
    if IsOk err then mret tt
    else if existsb (Z.eqb (libvirt_go.Code err)) connection_lost_codes then
      modify (with_alive false);;
      emit (EvLog "Connection to libvirt lost." (Some (libvirt_go.Code err)))
    else mret tt).

(** *** The wrapped operations

    Each takes [dial], the answer of the client should a reconnect be
    attempted, [answer], what the client call of the operation returns, and
    [lastError], what [GetLastError] returns when the deferred
    [checkConnectionLost] runs. *)

(** [type VirStream struct { *libvirt_go.Stream }] *)
Record VirStream := { Stream : option libvirt_go.Stream }.

(** A Go pointer to a heap cell. *)
Definition pointer := nat.

(** The interfaces [VirSecret] and [VirDomain] hold pointers to the client's
    [Secret] and [Domain] structs; [None] is the nil interface. *)
Definition VirSecret := option pointer.
Definition VirDomain := option pointer.

(** [func (l *LibvirtConnection) NewStream(flags)] *)
Definition NewStream (flags : Z) (dial : Dialer)
    (answer : option libvirt_go.Stream * error) (lastError : libvirt_go.Error)
  : M (option VirStream * error) :=
  err ← reconnectIfNecessary dial;
  match err with
  | Some e => mret (None, Some e)
  | None =>
      defer (checkConnectionLost lastError) (
        r ← client (Connect_NewStream flags) answer;
        match r.2 with
        | Some e => mret (None, Some e)
        | None => mret (Some {| Stream := r.1 |}, None)
        end)
  end.

(** [func (l *LibvirtConnection) ListSecrets() (secrets []string, err error)] *)
Definition ListSecrets (dial : Dialer)
    (answer : list string * error) (lastError : libvirt_go.Error)
  : M (list string * error) :=
  err ← reconnectIfNecessary dial;
  match err with
  | Some e => mret ([], Some e)
  | None =>
      defer (checkConnectionLost lastError) (client Connect_ListSecrets answer)
  end.

(** [func (l *LibvirtConnection) LookupSecretByUUIDString(uuid)] *)
Definition LookupSecretByUUIDString (uuid : string) (dial : Dialer)
    (answer : VirSecret * error) (lastError : libvirt_go.Error)
  : M (VirSecret * error) :=
  err ← reconnectIfNecessary dial;
  match err with
  | Some e => mret (None, Some e)
  | None =>
      defer (checkConnectionLost lastError)
            (client (Connect_LookupSecretByUUIDString uuid) answer)
  end.

(** [func (l *LibvirtConnection) LookupSecretByUsage(usageType, usageID)] *)
Definition LookupSecretByUsage (usageType : Z) (usageID : string) (dial : Dialer)
    (answer : VirSecret * error) (lastError : libvirt_go.Error)
  : M (VirSecret * error) :=
  err ← reconnectIfNecessary dial;
  match err with
  | Some e => mret (None, Some e)
  | None =>
      defer (checkConnectionLost lastError)
            (client (Connect_LookupSecretByUsage usageType usageID) answer)
  end.

(** [new(T)] for a variable that escapes: a fresh cell, at the end of the
    heap. *)
Definition alloc (v : nat) : M pointer := fun s =>
  (Return (length (heap s)),
   {| handle := handle s; heap := heap s ++ [v]; trace := trace s |}).

(** [*p = v] *)
Definition store (p : pointer) (v : nat) : M unit := fun s =>
  (Return tt,
   {| handle := handle s; heap := <[p := v]> (heap s); trace := trace s |}).

(** The body of [for i, d := range xs { out[i] = &d }], from index [i] on.
    In the Go of this code (before 1.22, where each iteration got a variable
    of its own) the loop has one variable [d] for all its iterations: each
    iteration assigns the next element to it and stores its address. *)
Fixpoint range_address_of (d : pointer) (i : nat) (xs : list nat)
    (out : list (option pointer)) : M (list (option pointer)) :=
  match xs with
  | [] => mret out
  | x :: rest =>
      store d x;;
      range_address_of d (S i) rest (<[i := Some d]> out)
  end.

(** [out := make([]T, len(xs)); for i, d := range xs { out[i] = &d }] *)
Definition addresses_of (xs : list nat) : M (list (option pointer)) :=
  let out := replicate (length xs) None in
  d ← alloc 0%nat;
  range_address_of d 0 xs out.

(** [func (l *LibvirtConnection) ListAllSecrets(flags)] *)
Definition ListAllSecrets (flags : Z) (dial : Dialer)
    (answer : list libvirt_go.Secret * error) (lastError : libvirt_go.Error)
  : M (list VirSecret * error) :=
  err ← reconnectIfNecessary dial;
  match err with
  | Some e => mret ([], Some e)
  | None =>
      defer (checkConnectionLost lastError) (
        r ← client (Connect_ListAllSecrets flags) answer;
        match r.2 with
        | Some e => mret ([], Some e)
        | None =>
            secrets ← addresses_of r.1;
            mret (secrets, None)
        end)
  end.

(** [func (l *LibvirtConnection) SecretDefineXML(xml)] *)
Definition SecretDefineXML (xml : string) (dial : Dialer)
    (answer : VirSecret * error) (lastError : libvirt_go.Error)
  : M (VirSecret * error) :=
  err ← reconnectIfNecessary dial;
  match err with
  | Some e => mret (None, Some e)
  | None =>
      defer (checkConnectionLost lastError)
            (client (Connect_SecretDefineXML xml 0) answer)
  end.

(** [callback.(libvirt_go.DomainEventLifecycleCallback)], the one-result
    form of the type assertion. *)
Definition assert_DomainEventLifecycleCallback (callback : interface)
  : M libvirt_go.DomainEventLifecycleCallback :=
  match callback with
  | LifecycleCallback cb => mret cb
  | nil_interface =>
      panic "interface conversion: interface is nil, not libvirt.DomainEventLifecycleCallback"
  | OtherValue t =>
      panic ("interface conversion: interface {} is " +:+ t +:+
             ", not libvirt.DomainEventLifecycleCallback")
  end.

(** [func (l *LibvirtConnection) RegisterGuestEventLifecycle(callback
    interface{}) (err error)] *)
Definition RegisterGuestEventLifecycle (callback : interface) (dial : Dialer)
    (answer : Z * error) (lastError : libvirt_go.Error) : M error :=
  err ← reconnectIfNecessary dial;
  match err with
  | Some e => mret (Some e)
  | None =>
      defer (checkConnectionLost lastError) (
        lvcb ← assert_DomainEventLifecycleCallback callback;
        modify (fun l => with_callbacks (callbacks l ++ [lvcb]) l);;
        r ← client (Connect_DomainEventLifecycleRegister lvcb) answer;
        mret r.2)
  end.

(** [func (l *LibvirtConnection) LookupGuestByName(name)] *)
Definition LookupGuestByName (name : string) (dial : Dialer)
    (answer : VirDomain * error) (lastError : libvirt_go.Error)
  : M (VirDomain * error) :=
  err ← reconnectIfNecessary dial;
  match err with
  | Some e => mret (None, Some e)
  | None =>
      defer (checkConnectionLost lastError)
            (client (Connect_LookupDomainByName name) answer)
  end.

(** [func (l *LibvirtConnection) DefineGuestSpec(xml)] *)
Definition DefineGuestSpec (xml : string) (dial : Dialer)
    (answer : VirDomain * error) (lastError : libvirt_go.Error)
  : M (VirDomain * error) :=
  err ← reconnectIfNecessary dial;
  match err with
  | Some e => mret (None, Some e)
  | None =>
      defer (checkConnectionLost lastError)
            (client (Connect_DomainDefineXML xml) answer)
  end.

(** [func (l *LibvirtConnection) ListAllGuests(actives, inactives)] *)
Definition ListAllGuests (actives inactives : bool) (dial : Dialer)
    (answer : list libvirt_go.Domain * error) (lastError : libvirt_go.Error)
  : M (list VirDomain * error) :=
  err ← reconnectIfNecessary dial;
  match err with
  | Some e => mret ([], Some e)
  | None =>
      defer (checkConnectionLost lastError) (
        let flags : libvirt_go.ConnectListAllDomainsFlags := 0 in
        let flags :=
          if actives then Z.lor flags libvirt_go.CONNECT_LIST_DOMAINS_ACTIVE
          else flags in
        let flags :=
          if inactives then Z.lor flags libvirt_go.CONNECT_LIST_DOMAINS_INACTIVE
          else flags in
        r ← client (Connect_ListAllDomains flags) answer;
        match r.2 with
        | Some e => mret ([], Some e)
        | None =>
            doms ← addresses_of r.1;
            mret (doms, None)
        end)
  end.

(** *** The watchdog *)

(** One wake-up of the goroutine of [MonitorConnection] through
    [<-time.After(checkInterval)]; [isAlive] is what [l.Connect.IsAlive()]
    answers. *)
Definition tick (dial : Dialer) (isAlive : bool * error)
    (lastError : libvirt_go.Error) : M unit :=
  reconnectIfNecessary dial;;
  '(isalive, err) ← client Connect_IsAlive isAlive;
  if (isalive : bool) then mret tt
  else
    match err with
    | None =>
        emit (EvLog "Connection to libvirt lost" None);;
        Lock;;
        modify (with_alive false);;
        Unlock
    | Some _ => checkConnectionLost lastError
    end.

(** The goroutine of [func (l *LibvirtConnection) MonitorConnection]: at
    each turn of its loop it returns when [l.stop] is closed and otherwise
    sleeps and ticks.  [answers] gives the client's answers tick by tick;
    the run is followed for as long as there are answers. *)
Fixpoint MonitorConnection
    (answers : list (Dialer * (bool * error) * libvirt_go.Error)) : M unit :=
  match answers with
  | [] => mret tt
  | a :: rest =>
      l ← get_handle;
      match stop l with
      | ChanClosed => mret tt
      | _ => tick a.1.1 a.1.2 a.2;; MonitorConnection rest
      end
  end.

End Closures.

(** *** Close *)

(** [close(l.stop)] *)
Definition close_stop : M unit := fun s =>
  match stop (handle s) with
  | ChanNil => (Panic "close of nil channel", s)
  | ChanClosed => (Panic "close of closed channel", s)
  | ChanOpen => emit EvCloseChan (with_handle (with_stop ChanClosed (handle s)) s)
  end.

(** How many times a channel can still be closed. *)
Definition closable (c : chan) : nat :=
  match c with ChanOpen => 1 | _ => 0 end.

(** [func (l *LibvirtConnection) Close() (int, error)]: [close(l.stop)], then
    [return l.Close()], a call of this same method. *)
Equations? Close (s : State) : Outcome (Z * error) * State
  by wf (closable (stop (handle s))) lt :=
Close s with Logic.inspect (close_stop s) := {
  | exist _ (Return _, s') E => Close s'
  | exist _ (Panic msg, s') _ => (Panic msg, s')
  | exist _ (Blocked, s') _ => (Blocked, s') }.
Proof.
  clear Close. unfold close_stop in E.
  destruct (stop (handle s)); try discriminate.
  injection E as _ <-. simpl. lia.
Qed.

(** *** The dialer *)

(** [time.Duration] counts nanoseconds. *)
Definition Duration := Z.
Definition Second : Duration := 1000000000.

Definition ConnectionTimeout : Duration := 15 * Second.
Definition ConnectionInterval : Duration := 10 * Second.

Section Poll.

(** What the condition function closes over. *)
Context {V : Type}.

(** [type ConditionFunc func() (done bool, err error)], as a function on the
    variables it has captured. *)
Definition ConditionFunc := V -> (bool * error) * V.

(** Modelled from the spec: the schedule of [utilwait.PollImmediate].  The
    retries after the first attempt: one per interval that ends before the
    timeout has elapsed. *)
Definition retries (interval timeout : Duration) : nat :=
  Z.to_nat ((timeout - 1) / interval).

(** Modelled from the spec: the loop of [utilwait.PollImmediate], with [n]
    attempts left. *)
Fixpoint poll (n : nat) (condition : ConditionFunc) (v : V) : error * V :=
  match n with
  | O => (Some ErrWaitTimeout, v)
  | S k =>
      let '((done, err), v') := condition v in
      match err with
      | Some e => (Some e, v')
      | None => if done then (None, v') else poll k condition v'
      end
  end.

(** Modelled from the spec: [utilwait.PollImmediate] of the vendored
    k8s.io/apimachinery, which is not among the sources.  The spec has the
    dialer attempt at once, wait the fixed interval after each failed
    attempt, and stop when the timeout has elapsed: attempt number [k],
    counted from 0, is made at time [k * interval] provided that is before
    [timeout].  An error of the condition ends the poll with that error;
    running out of time ends it with [ErrWaitTimeout].  The clock is
    logical: an attempt takes no time. *)
Definition PollImmediate (interval timeout : Duration)
    (condition : ConditionFunc) (v : V) : error * V :=
  poll (S (retries interval timeout)) condition v.

End Poll.

(** What the function literal of [NewConnection] works on: the variable
    [virConn] it has captured, and the number of attempts made so far, which
    selects the answer of the client. *)
Record Dialing := { virConn : option libvirt_go.Connect; attempts : nat }.

(** The function literal that [NewConnection] hands to [PollImmediate].  It
    has results [done] and [err] of its own: the error of the attempt is
    assigned to that [err] and goes no further, the literal returns a nil
    error whatever the attempt did.  [dials k] is what the client answers to
    attempt number [k], counted from 0. *)
Definition condition (dials : nat -> Dialer) (uri user pass : string)
  : ConditionFunc := fun v =>
  let '(c, err) := newConnection (dials (attempts v)) uri user pass in
  let v' := {| virConn := c; attempts := S (attempts v) |} in
  match err with
  | Some _ => ((false, None), v')
  | None => ((true, None), v')
  end.

(** [func NewConnection(uri, user, pass) (Connection, error)].  The result
    comes with the number of attempts made. *)
Definition NewConnection (dials : nat -> Dialer) (uri user pass : string)
  : (option LibvirtConnection * error) * nat :=
  let '(err, v) :=
    PollImmediate ConnectionInterval ConnectionTimeout
                  (condition dials uri user pass)
                  {| virConn := None; attempts := 0 |} in
  match err with
  | Some e => ((None, Some (Errorf "cannot connect to libvirt daemon: %v" e)), attempts v)
  | None =>
      ((Some {| Connect := virConn v; user := user; pass := pass; uri := uri;
                alive := true; stop := ChanNil; reconnectLock := Unlocked;
                callbacks := [] |}, None), attempts v)
  end.

(** *** The rest of the package *)

(** The calls [VirStream.Close] makes on the stream of the client. *)
Inductive StreamCall := Stream_Finish | Stream_Free.

(** [func (s *VirStream) Close() (e error)]; [finish] and [free] are what
    [s.Finish()] and [s.Free()] answer.  The result comes with the calls made
    on the stream, in order. *)
Definition VirStream_Close (finish free : error) : error * list StreamCall :=
  let e := finish in
  match e with
  | Some _ => (free, [Stream_Finish; Stream_Free])
  | None => (e, [Stream_Finish; Stream_Free])
  end.

(** The body of the loop of the credential callback in [newConnection], on
    the credential [cred] points at. *)
Definition answer_credential (user pass : string)
    (cred : libvirt_go.ConnectCredential) : libvirt_go.ConnectCredential :=
  if (libvirt_go.Type' cred =? libvirt_go.CRED_AUTHNAME)%Z then
    {| libvirt_go.Type' := libvirt_go.Type' cred;
       libvirt_go.Prompt := libvirt_go.Prompt cred;
       libvirt_go.Challenge := libvirt_go.Challenge cred;
       libvirt_go.DefResult := libvirt_go.DefResult cred;
       libvirt_go.Result := user;
       libvirt_go.ResultLen := Z.of_nat (String.length user) |}
  else if (libvirt_go.Type' cred =? libvirt_go.CRED_PASSPHRASE)%Z then
    {| libvirt_go.Type' := libvirt_go.Type' cred;
       libvirt_go.Prompt := libvirt_go.Prompt cred;
       libvirt_go.Challenge := libvirt_go.Challenge cred;
       libvirt_go.DefResult := libvirt_go.DefResult cred;
       libvirt_go.Result := pass;
       libvirt_go.ResultLen := Z.of_nat (String.length pass) |}
  else cred.

(** The function literal [callback] of [newConnection]: [for _, cred := range
    creds { ... }] over a slice of pointers.  [mem] holds the credentials the
    pointers point at, a pointer being an index into it; the client hands out
    pointers to credentials it has allocated, and a pointer that points at
    nothing leaves [mem] as it is. *)
Fixpoint callback (user pass : string) (creds : list pointer)
    (mem : list libvirt_go.ConnectCredential) : list libvirt_go.ConnectCredential :=
  match creds with
  | [] => mem
  | cred :: rest =>
      callback user pass rest (alter (answer_credential user pass) cred mem)
  end.

(** [func IsDown(domState libvirt_go.DomainState) bool] *)
Definition IsDown (domState : libvirt_go.DomainState) : bool :=
  if existsb (Z.eqb domState)
       [ libvirt_go.DOMAIN_NOSTATE; libvirt_go.DOMAIN_SHUTDOWN;
         libvirt_go.DOMAIN_SHUTOFF; libvirt_go.DOMAIN_CRASHED ]
  then true
  else false.

(** [func IsPaused(domState libvirt_go.DomainState) bool] *)
Definition IsPaused (domState : libvirt_go.DomainState) : bool :=
  if existsb (Z.eqb domState) [ libvirt_go.DOMAIN_PAUSED ]
  then true
  else false.

(** *** Package virtwrap (hypervisor.go) *)

(** [func NewHypervisorConnection(uri, user, pass) (libvirt.Connection, error)] *)
Definition NewHypervisorConnection (dials : nat -> Dialer) (uri user pass : string)
  : (option LibvirtConnection * error) * nat :=
  NewConnection dials uri user pass.

(** [func MonitorHypervisorConnection(h libvirt.Connection, interval
    time.Duration)], on the handle of the state. *)
Definition MonitorHypervisorConnection
    (closure : libvirt_go.DomainEventLifecycleCallback ->
               option libvirt_go.Connect -> option libvirt_go.Domain ->
               option libvirt_go.DomainEventLifecycle -> M unit)
    (answers : list (Dialer * (bool * error) * libvirt_go.Error)) : M unit :=
  MonitorConnection closure answers.

(** ** Vocabulary of the statements *)

(** The classification the spec gives of a last error: it is present and its
    code is one of the seven that mean the connection is gone. *)
Definition lost (err : libvirt_go.Error) : bool :=
  negb (IsOk err) && existsb (Z.eqb (libvirt_go.Code err)) connection_lost_codes.

(** A closure that returns and leaves the state of its caller alone. *)
Definition passive
    (closure : libvirt_go.DomainEventLifecycleCallback ->
               option libvirt_go.Connect -> option libvirt_go.Domain ->
               option libvirt_go.DomainEventLifecycle -> M unit)
    (cb : libvirt_go.DomainEventLifecycleCallback) : Prop :=
  forall c d e s, closure cb c d e s = (Return tt, s).

(** The closure that does nothing. *)
Definition quiet (cb : libvirt_go.DomainEventLifecycleCallback)
    (c : option libvirt_go.Connect) (d : option libvirt_go.Domain)
    (e : option libvirt_go.DomainEventLifecycle) : M unit :=
  mret tt.

(** A closure that registers its callback again on the handle, on the
    goroutine that called it. *)
Definition reregisters
    (closure : libvirt_go.DomainEventLifecycleCallback ->
               option libvirt_go.Connect -> option libvirt_go.Domain ->
               option libvirt_go.DomainEventLifecycle -> M unit)
    (dial : Dialer) (answer : Z * error) (lastError : libvirt_go.Error)
    (cb : libvirt_go.DomainEventLifecycleCallback)
    (c : option libvirt_go.Connect) (d : option libvirt_go.Domain)
    (e : option libvirt_go.DomainEventLifecycle) : M unit :=
  RegisterGuestEventLifecycle closure (LifecycleCallback cb) dial answer lastError;;
  mret tt.

(** The call of [cb] that a reconnect makes: the new session and two nils. *)
Definition notification (c : option libvirt_go.Connect) (l : LibvirtConnection)
    (cb : libvirt_go.DomainEventLifecycleCallback) : Event * LibvirtConnection :=
  (EvCallback cb c None None, l).

Definition locked (l : LibvirtConnection) : LibvirtConnection :=
  with_reconnectLock Locked l.

(** The handle a successful reconnect leaves. *)
Definition reconnected (c : option libvirt_go.Connect) (l : LibvirtConnection)
  : LibvirtConnection :=
  with_callbacks [] (with_alive true (with_Connect c l)).

Definition is_callback (ev : Event * LibvirtConnection) : bool :=
  match ev.1 with EvCallback _ _ _ _ => true | _ => false end.

Definition is_dial (ev : Event * LibvirtConnection) : bool :=
  match ev.1 with EvClient (NewConnectWithAuth _ _ _) => true | _ => false end.

Definition is_classifier (ev : Event * LibvirtConnection) : bool :=
  match ev.1 with EvClient GetLastError => true | _ => false end.

(** The calls of callbacks in a history, in the order they were made. *)
Definition callback_events (t : list (Event * LibvirtConnection)) :=
  List.filter is_callback t.

(** The reading of the claim that callbacks are called with the lock
    released: every call of a callback in the run finds the mutex free. *)
Definition notified_outside_lock
    (closure : libvirt_go.DomainEventLifecycleCallback ->
               option libvirt_go.Connect -> option libvirt_go.Domain ->
               option libvirt_go.DomainEventLifecycle -> M unit)
    (dial : Dialer) (s : State) : Prop :=
  forall ev, In ev (callback_events (trace (reconnectIfNecessary closure dial s).2)) ->
             reconnectLock ev.2 = Unlocked.

(** [e] is [inner], or was built from it by [fmt.Errorf]. *)
Fixpoint wraps (e inner : error_value) : Prop :=
  e = inner \/
  match e with
  | Errorf _ arg => wraps arg inner
  | _ => False
  end.

(** What a pointer points at. *)
Definition deref (hp : list nat) (p : option pointer) : option nat :=
  p ≫= fun a => hp !! a.

(** Handles and answers to run the code on. *)
Definition lost_handle : LibvirtConnection :=
  {| Connect := Some 1%nat; user := "user"; pass := "pass";
     uri := "qemu:///system"; alive := false; stop := ChanOpen;
     reconnectLock := Unlocked; callbacks := [7%nat; 8%nat] |}.

Definition live_handle : LibvirtConnection := with_callbacks [] (with_alive true lost_handle).

Definition start (l : LibvirtConnection) : State :=
  {| handle := l; heap := []; trace := [] |}.

Definition dial_ok : Dialer := fun _ _ _ => (Some 2%nat, None).

Definition system_error : libvirt_go.Error :=
  {| libvirt_go.Code := libvirt_go.ERR_SYSTEM_ERROR; libvirt_go.Message := "connection refused" |}.

Definition rpc_error : libvirt_go.Error :=
  {| libvirt_go.Code := libvirt_go.ERR_RPC; libvirt_go.Message := "broken pipe" |}.

Definition no_domain : libvirt_go.Error :=
  {| libvirt_go.Code := libvirt_go.ERR_NO_DOMAIN; libvirt_go.Message := "no such domain" |}.

Definition no_error : libvirt_go.Error :=
  {| libvirt_go.Code := libvirt_go.ERR_OK; libvirt_go.Message := "" |}.

Definition dial_refused : Dialer := fun _ _ _ => (None, Some (LibvirtError system_error)).

(** A client that refuses the first attempt and accepts the following ones. *)
Definition refused_once (k : nat) : Dialer :=
  match k with O => dial_refused | _ => dial_ok end.

(** What the deferred classifier leaves of a handle. *)
Definition classified (lastError : libvirt_go.Error) (l : LibvirtConnection)
  : LibvirtConnection :=
  if lost lastError then with_alive false l else l.

(** The events of one run of the classifier on the handle [l]. *)
Definition classifier_events (lastError : libvirt_go.Error) (l : LibvirtConnection)
  : list (Event * LibvirtConnection) :=
  [(EvLock, locked l); (EvClient GetLastError, locked l)] ++
  (if lost lastError
   then [(EvLog "Connection to libvirt lost." (Some (libvirt_go.Code lastError)),
          with_alive false (locked l))]
   else []) ++
  [(EvUnlock, classified lastError l)].

Definition is_register (ev : Event * LibvirtConnection) : bool :=
  match ev.1 with
  | EvClient (Connect_DomainEventLifecycleRegister _) => true
  | _ => false
  end.

Definition closes_channel (ev : Event * LibvirtConnection) : Prop :=
  ev.1 = EvCloseChan.

(** The state once the watchdog has asked the session whether it is alive. *)
Definition asked_alive (s1 : State) : State :=
  {| handle := handle s1; heap := heap s1;
     trace := trace s1 ++ [(EvClient Connect_IsAlive, handle s1)] |}.

(** Vocabulary of the further properties. *)

Definition is_list_domains (ev : Event * LibvirtConnection) : bool :=
  match ev.1 with
  | EvClient (Connect_ListAllDomains _) => true
  | _ => false
  end.

Definition is_alive_query (ev : Event * LibvirtConnection) : bool :=
  match ev.1 with
  | EvClient Connect_IsAlive => true
  | _ => false
  end.

(** A closure that panics. *)
Definition panics
    (closure : libvirt_go.DomainEventLifecycleCallback ->
               option libvirt_go.Connect -> option libvirt_go.Domain ->
               option libvirt_go.DomainEventLifecycle -> M unit)
    (msg : string) (cb : libvirt_go.DomainEventLifecycleCallback) : Prop :=
  forall c d e s, closure cb c d e s = (Panic msg, s).

(** The closure of a watcher whose callback 8 panics. *)
Definition panics_on_8 (cb : libvirt_go.DomainEventLifecycleCallback)
    (c : option libvirt_go.Connect) (d : option libvirt_go.Domain)
    (e : option libvirt_go.DomainEventLifecycle) : M unit :=
  if Nat.eqb cb 8 then panic "watcher gone" else mret tt.

(** A client that accepts every attempt, with a session. *)
Definition connects (dial : Dialer) : Prop :=
  forall uri user pass, exists c, dial uri user pass = (Some c, None).

(** A credential as the client hands it to the callback, not yet answered. *)
Definition asks_for (t : libvirt_go.ConnectCredentialType)
  : libvirt_go.ConnectCredential :=
  {| libvirt_go.Type' := t; libvirt_go.Prompt := "";
     libvirt_go.Challenge := ""; libvirt_go.DefResult := "";
     libvirt_go.Result := ""; libvirt_go.ResultLen := 0 |}.

(** ** Running the code *)

Ltac run :=
  unfold mbind, M_bind, mret, M_ret, client, emit, modify, get_handle, defer,
    panic, Lock, Unlock, with_handle; simpl.

Lemma relock l :
  reconnectLock l = Unlocked ->
  with_reconnectLock Unlocked (with_reconnectLock Locked l) = l.
Proof. destruct l; simpl; intros ->; reflexivity. Qed.

Lemma lost_spec err :
  lost err = true <->
  IsOk err = false /\ In (libvirt_go.Code err) connection_lost_codes.
Proof.
  unfold lost. rewrite andb_true_iff, negb_true_iff, existsb_exists.
  split.
  - intros [Hok (c & Hin & Heq)]. apply Z.eqb_eq in Heq. subst c. auto.
  - intros [Hok Hin]. split; [assumption|].
    exists (libvirt_go.Code err). split; [assumption | apply Z.eqb_refl].
Qed.

Lemma checkConnectionLost_run err s :
  reconnectLock (handle s) = Unlocked ->
  checkConnectionLost err s =
    (Return tt,
     {| handle := classified err (handle s); heap := heap s;
        trace := trace s ++ classifier_events err (handle s) |}).
Proof.
  intros H. unfold checkConnectionLost, classifier_events, classified, lost.
  remember connection_lost_codes as codes eqn:Hcodes. clear Hcodes.
  destruct s as [l hp tr]; simpl in H. run. rewrite H. simpl.
  destruct (IsOk err); simpl.
  - rewrite (relock l H), <- !app_assoc. reflexivity.
  - destruct (existsb (Z.eqb (libvirt_go.Code err)) codes); simpl.
    + rewrite <- !app_assoc. f_equal. f_equal.
      * destruct l; simpl in *; subst; reflexivity.
      * simpl. repeat f_equal. destruct l; simpl in *; subst; reflexivity.
    + rewrite (relock l H), <- !app_assoc. reflexivity.
Qed.

Lemma callback_events_notifications c l cbs :
  callback_events (map (notification c l) cbs) = map (notification c l) cbs.
Proof.
  unfold callback_events. induction cbs as [|cb rest IH]; simpl; [reflexivity|].
  now rewrite IH.
Qed.

Section Runs.

Variable closure :
  libvirt_go.DomainEventLifecycleCallback ->
  option libvirt_go.Connect -> option libvirt_go.Domain ->
  option libvirt_go.DomainEventLifecycle -> M unit.

Lemma notify_run cbs s :
  Forall (passive closure) cbs ->
  notify closure cbs s =
    (Return tt,
     {| handle := handle s; heap := heap s;
        trace := trace s ++
                 map (notification (Connect (handle s)) (handle s)) cbs |}).
Proof.
  intros Hp. revert s. induction Hp as [|cb rest Hcb _ IH]; intros [l hp tr].
  - simpl. run. rewrite app_nil_r. reflexivity.
  - simpl notify. unfold call. run. rewrite Hcb. rewrite IH. simpl.
    rewrite <- app_assoc. reflexivity.
Qed.

Lemma reconnect_blocked dial s :
  reconnectLock (handle s) = Locked ->
  reconnectIfNecessary closure dial s = (Blocked, s).
Proof.
  intros H. unfold reconnectIfNecessary. destruct s as [l hp tr]; simpl in H.
  run. rewrite H. reflexivity.
Qed.

Lemma reconnect_alive dial s :
  reconnectLock (handle s) = Unlocked ->
  alive (handle s) = true ->
  reconnectIfNecessary closure dial s =
    (Return None,
     {| handle := handle s; heap := heap s;
        trace := trace s ++ [(EvLock, locked (handle s)); (EvUnlock, handle s)] |}).
Proof.
  intros Hl Ha. unfold reconnectIfNecessary. destruct s as [l hp tr]; simpl in *.
  run. rewrite Hl. simpl. rewrite Ha. simpl.
  rewrite (relock l Hl), <- app_assoc. reflexivity.
Qed.

Lemma reconnect_failed dial s c e :
  reconnectLock (handle s) = Unlocked ->
  alive (handle s) = false ->
  dial (uri (handle s)) (user (handle s)) (pass (handle s)) = (c, Some e) ->
  reconnectIfNecessary closure dial s =
    (Return (Some e),
     {| handle := with_Connect c (handle s); heap := heap s;
        trace := trace s ++
          [(EvLock, locked (handle s));
           (EvClient (NewConnectWithAuth (uri (handle s)) (user (handle s))
                                         (pass (handle s))),
            locked (handle s));
           (EvUnlock, with_Connect c (handle s))] |}).
Proof.
  intros Hl Ha Hd. unfold reconnectIfNecessary, newConnection.
  destruct s as [l hp tr]; simpl in *.
  run. rewrite Hl. simpl. rewrite Ha. simpl. rewrite Hd. simpl.
  rewrite <- !app_assoc. simpl.
  destruct l; simpl in *; subst; reflexivity.
Qed.

Lemma reconnect_succeeded dial s c :
  reconnectLock (handle s) = Unlocked ->
  alive (handle s) = false ->
  dial (uri (handle s)) (user (handle s)) (pass (handle s)) = (c, None) ->
  Forall (passive closure) (callbacks (handle s)) ->
  reconnectIfNecessary closure dial s =
    (Return None,
     {| handle := reconnected c (handle s); heap := heap s;
        trace := trace s ++
          ([(EvLock, locked (handle s));
            (EvClient (NewConnectWithAuth (uri (handle s)) (user (handle s))
                                          (pass (handle s))),
             locked (handle s))] ++
           map (notification c (locked (reconnected c (handle s))))
               (callbacks (handle s))) ++
          [(EvUnlock, reconnected c (handle s))] |}).
Proof.
  intros Hl Ha Hd Hp. unfold reconnectIfNecessary, newConnection.
  destruct s as [l hp tr]; simpl in *.
  run. rewrite Hl. simpl. rewrite Ha. simpl. rewrite Hd. simpl.
  rewrite notify_run by assumption. simpl.
  rewrite <- !app_assoc. simpl.
  destruct l; simpl in *; subst; reflexivity.
Qed.

End Runs.

Lemma register_blocked closure callback dial answer lastError s :
  reconnectLock (handle s) = Locked ->
  RegisterGuestEventLifecycle closure callback dial answer lastError s = (Blocked, s).
Proof.
  intros H. unfold RegisterGuestEventLifecycle, mbind, M_bind.
  rewrite reconnect_blocked by assumption. reflexivity.
Qed.

Lemma reregisters_blocked closure dial answer lastError cb c d e s :
  reconnectLock (handle s) = Locked ->
  reregisters closure dial answer lastError cb c d e s = (Blocked, s).
Proof.
  intros H. unfold reregisters, mbind, M_bind.
  rewrite register_blocked by assumption. reflexivity.
Qed.

(** ** The error classifier *)

(** C1.  Called with the mutex free, [checkConnectionLost] returns, and it
    leaves the handle with [alive] false exactly when the last error is
    present and its code is one of internal-error, invalid-connection,
    auth-cancelled, out-of-memory, auth-failed, system-error and rpc-error;
    for any other code, and when no error is present, the handle is left as it
    was. *)
Theorem checkConnectionLost_alive (err : libvirt_go.Error) (s : State) :
  reconnectLock (handle s) = Unlocked ->
  let fatal :=
    IsOk err = false /\
    In (libvirt_go.Code err)
       [ libvirt_go.ERR_INTERNAL_ERROR; libvirt_go.ERR_INVALID_CONN;
         libvirt_go.ERR_AUTH_CANCELLED; libvirt_go.ERR_NO_MEMORY;
         libvirt_go.ERR_AUTH_FAILED; libvirt_go.ERR_SYSTEM_ERROR;
         libvirt_go.ERR_RPC ] in
  exists s',
    checkConnectionLost err s = (Return tt, s') /\
    (fatal -> handle s' = with_alive false (handle s) /\ alive (handle s') = false) /\
    (~ fatal -> handle s' = handle s).
Proof.
  intros Hl fatal.
  eexists. split; [exact (checkConnectionLost_run err s Hl)|].
  unfold classified. simpl.
  destruct (lost err) eqn:E.
  - split; [intros _; split; reflexivity|].
    intros Hn. exfalso. apply Hn, lost_spec, E.
  - split; [|reflexivity].
    intros Hf. apply lost_spec in Hf. congruence.
Qed.

Lemma checkConnectionLost_alive_witness :
  exists s',
    checkConnectionLost rpc_error (start live_handle) = (Return tt, s') /\
    alive (handle s') = false.
Proof.
  destruct (checkConnectionLost_alive rpc_error (start live_handle) eq_refl)
    as (s' & Hrun & Hfatal & _).
  exists s'. split; [exact Hrun|].
  apply Hfatal. split; [reflexivity|]. simpl. tauto.
Defined.

(** ** Reconnecting *)

(** C2.  On a handle that is not alive, with the mutex free and callbacks that
    return, a reconnect whose single dial succeeds returns nil and leaves the
    handle alive on the new session with an empty registry.  The callbacks it
    called are those that were registered, each once and in the order of their
    registration, each with the new session, a nil domain and a nil event; and
    at each of these calls the registry of the handle was already empty. *)
Theorem reconnect_drains_registry closure (dial : Dialer) (s : State)
    (c : option libvirt_go.Connect) :
  reconnectLock (handle s) = Unlocked ->
  alive (handle s) = false ->
  dial (uri (handle s)) (user (handle s)) (pass (handle s)) = (c, None) ->
  Forall (passive closure) (callbacks (handle s)) ->
  exists s' t at_call,
    reconnectIfNecessary closure dial s = (Return None, s') /\
    trace s' = trace s ++ t /\
    alive (handle s') = true /\
    Connect (handle s') = c /\
    callbacks (handle s') = [] /\
    callbacks at_call = [] /\
    callback_events t =
      map (fun cb => (EvCallback cb c None None, at_call)) (callbacks (handle s)).
Proof.
  intros Hl Ha Hd Hp.
  eexists _, _, (locked (reconnected c (handle s))).
  split; [apply reconnect_succeeded; eassumption|].
  simpl. repeat split.
  unfold callback_events. simpl. rewrite List.filter_app. simpl.
  rewrite app_nil_r. apply callback_events_notifications.
Qed.

Lemma reconnect_drains_registry_witness :
  exists s' t at_call,
    reconnectIfNecessary quiet dial_ok (start lost_handle) = (Return None, s') /\
    trace s' = t /\
    alive (handle s') = true /\
    Connect (handle s') = Some 2%nat /\
    callbacks (handle s') = [] /\
    callbacks at_call = [] /\
    callback_events t =
      [ (EvCallback 7%nat (Some 2%nat) None None, at_call);
        (EvCallback 8%nat (Some 2%nat) None None, at_call) ].
Proof.
  apply (reconnect_drains_registry quiet dial_ok (start lost_handle) (Some 2%nat));
    try reflexivity.
  repeat constructor.
Defined.

(** C4.  On a handle that is not alive, with the mutex free, a reconnect whose
    dial fails makes that one dial, returns its error, and leaves [alive]
    false and the registry as it was; no callback is called. *)
Theorem reconnect_failure_keeps_registry closure (dial : Dialer) (s : State)
    (c : option libvirt_go.Connect) (e : error_value) :
  reconnectLock (handle s) = Unlocked ->
  alive (handle s) = false ->
  dial (uri (handle s)) (user (handle s)) (pass (handle s)) = (c, Some e) ->
  exists s' t,
    reconnectIfNecessary closure dial s = (Return (Some e), s') /\
    trace s' = trace s ++ t /\
    length (List.filter is_dial t) = 1%nat /\
    alive (handle s') = false /\
    callbacks (handle s') = callbacks (handle s) /\
    callback_events t = [].
Proof.
  intros Hl Ha Hd.
  eexists _, _. split; [apply reconnect_failed; eassumption|].
  simpl. repeat split. exact Ha.
Qed.

Lemma reconnect_failure_keeps_registry_witness :
  exists s' t,
    reconnectIfNecessary quiet dial_refused (start lost_handle) =
      (Return (Some (LibvirtError system_error)), s') /\
    trace s' = t /\
    length (List.filter is_dial t) = 1%nat /\
    alive (handle s') = false /\
    callbacks (handle s') = [7%nat; 8%nat] /\
    callback_events t = [].
Proof.
  apply (reconnect_failure_keeps_registry quiet dial_refused (start lost_handle) None);
    reflexivity.
Defined.

(** C3, as the spec has it, fails: in the reconnect of a handle with two
    callbacks the calls of the callbacks do not find the mutex free, and when
    the callbacks register themselves again from inside the call the
    goroutine blocks. *)
Lemma reconnect_notifies_outside_lock_fails :
  ~ notified_outside_lock quiet dial_ok (start lost_handle) /\
  (reconnectIfNecessary (reregisters quiet dial_ok (0, None) no_error)
                        dial_ok (start lost_handle)).1 = Blocked.
Proof.
  split; [|reflexivity].
  intros H.
  specialize (H (EvCallback 7%nat (Some 2%nat) None None,
                 locked (reconnected (Some 2%nat) lost_handle))).
  simpl in H. discriminate H. left. reflexivity.
Qed.

(** C3, amended.  During a successful reconnect the mutex is held from the
    start to the end: every event before the last finds it held, the calls of
    the callbacks among them, and the last event is the unlock of the deferred
    call.  A callback that registers itself again from inside its call blocks
    the goroutine on that mutex. *)
Theorem reconnect_notifies_under_lock closure (dial : Dialer) (s : State)
    (c : option libvirt_go.Connect) :
  reconnectLock (handle s) = Unlocked ->
  alive (handle s) = false ->
  dial (uri (handle s)) (user (handle s)) (pass (handle s)) = (c, None) ->
  (Forall (passive closure) (callbacks (handle s)) ->
   exists s' t,
     reconnectIfNecessary closure dial s = (Return None, s') /\
     trace s' = trace s ++ t ++ [(EvUnlock, handle s')] /\
     Forall (fun ev => reconnectLock ev.2 = Locked) t /\
     callback_events t =
       map (notification c (locked (handle s'))) (callbacks (handle s))) /\
  (forall cb rest closure' dial' answer lastError,
     callbacks (handle s) = cb :: rest ->
     closure cb = reregisters closure' dial' answer lastError cb ->
     (reconnectIfNecessary closure dial s).1 = Blocked).
Proof.
  intros Hl Ha Hd. split.
  - intros Hp.
    eexists _,
      ([(EvLock, locked (handle s));
        (EvClient (NewConnectWithAuth (uri (handle s)) (user (handle s))
                                      (pass (handle s))),
         locked (handle s))] ++
       map (notification c (locked (reconnected c (handle s))))
           (callbacks (handle s))).
    split; [apply reconnect_succeeded; eassumption|].
    split; [reflexivity|]. split.
    + apply Forall_app. split; [repeat constructor|].
      apply Forall_forall. intros ev Hin.
      apply list_elem_of_In, in_map_iff in Hin as (cb & <- & _). reflexivity.
    + unfold callback_events. simpl.
      apply callback_events_notifications.
  - intros cb rest closure' dial' answer lastError Hcbs Hcb.
    unfold reconnectIfNecessary, newConnection.
    destruct s as [l hp tr]; simpl in *.
    run. rewrite Hl. simpl. rewrite Ha. simpl. rewrite Hd. simpl.
    rewrite Hcbs. simpl. unfold call. run. rewrite Hcb.
    rewrite reregisters_blocked by reflexivity. reflexivity.
Qed.

Lemma reconnect_notifies_under_lock_witness :
  (exists s' t,
     reconnectIfNecessary quiet dial_ok (start lost_handle) = (Return None, s') /\
     trace s' = t ++ [(EvUnlock, handle s')] /\
     Forall (fun ev => reconnectLock ev.2 = Locked) t /\
     callback_events t =
       map (notification (Some 2%nat) (locked (handle s'))) [7%nat; 8%nat]) /\
  (reconnectIfNecessary (reregisters quiet dial_ok (0, None) no_error)
                        dial_ok (start lost_handle)).1 = Blocked.
Proof.
  split.
  - apply (reconnect_notifies_under_lock quiet dial_ok (start lost_handle)
             (Some 2%nat) eq_refl eq_refl eq_refl).
    repeat constructor.
  - apply (reconnect_notifies_under_lock
             (reregisters quiet dial_ok (0, None) no_error) dial_ok
             (start lost_handle) (Some 2%nat) eq_refl eq_refl eq_refl)
      with (cb := 7%nat) (rest := [8%nat]) (closure' := quiet) (dial' := dial_ok)
           (answer := (0, None)) (lastError := no_error); reflexivity.
Defined.

(** ** The wrapped operations *)

Lemma defer_check {A} (body : M A) (a : A) lastError s s1 :
  body s = (Return a, s1) ->
  reconnectLock (handle s1) = Unlocked ->
  defer (checkConnectionLost lastError) body s =
    (Return a,
     {| handle := classified lastError (handle s1);
        heap := heap s1;
        trace := trace s1 ++ classifier_events lastError (handle s1) |}).
Proof.
  intros Hb Hl. unfold defer. rewrite Hb.
  rewrite (checkConnectionLost_run lastError s1 Hl). reflexivity.
Qed.

Lemma defer_check_panic {A} (body : M A) msg lastError s s1 :
  body s = (Panic msg, s1) ->
  reconnectLock (handle s1) = Unlocked ->
  defer (checkConnectionLost lastError) body s =
    (Panic msg,
     {| handle := classified lastError (handle s1);
        heap := heap s1;
        trace := trace s1 ++ classifier_events lastError (handle s1) |}).
Proof.
  intros Hb Hl. unfold defer. rewrite Hb.
  rewrite (checkConnectionLost_run lastError s1 Hl). reflexivity.
Qed.

(** The loop that takes the address of its variable: when it has gone through
    [xs], every slot it has filled holds the address of the one variable, and
    the variable holds the last element. *)
Lemma range_address_of_run d xs : forall i s,
  range_address_of d i xs
      (replicate i (Some d) ++ replicate (length xs) None) s =
    (Return (replicate (i + length xs) (Some d)),
     {| handle := handle s;
        heap := match xs with
                | [] => heap s
                | _ => <[d := List.last xs 0%nat]> (heap s)
                end;
        trace := trace s |}).
Proof.
  induction xs as [|x rest IH]; intros i [l hp tr]; simpl length.
  - simpl. unfold mret, M_ret. rewrite Nat.add_0_r, app_nil_r. reflexivity.
  - simpl range_address_of. unfold mbind, M_bind, store.
    simpl handle; simpl heap; simpl trace.
    rewrite insert_app_r_alt by (rewrite length_replicate; lia).
    rewrite length_replicate, Nat.sub_diag. simpl insert.
    rewrite cons_middle, app_assoc, <- replicate_S_end.
    rewrite IH. simpl. rewrite Nat.add_succ_r. f_equal. f_equal.
    destruct rest as [|y rest']; [reflexivity|].
    rewrite list_insert_insert_eq. reflexivity.
Qed.

Lemma addresses_of_run xs s :
  addresses_of xs s =
    (Return (replicate (length xs) (Some (length (heap s)))),
     {| handle := handle s; heap := heap s ++ [List.last xs 0%nat];
        trace := trace s |}).
Proof.
  unfold addresses_of, mbind, M_bind, alloc.
  rewrite (range_address_of_run (length (heap s)) xs 0). simpl.
  f_equal. f_equal. destruct xs as [|x rest]; [reflexivity|].
  rewrite insert_app_r_alt by lia. rewrite Nat.sub_diag. reflexivity.
Qed.

Ltac wrapped Hl Ha :=
  unfold mbind, M_bind; rewrite (reconnect_alive _ _ _ Hl Ha);
  cbv beta iota;
  match goal with
  | |- context [defer (checkConnectionLost ?er) ?body ?st] =>
      erewrite (defer_check body) with (lastError := er) (s := st);
      cycle 1;
      [ unfold client, mbind, M_bind, mret, M_ret, emit; simpl;
        rewrite ?addresses_of_run; reflexivity
      | simpl; exact Hl
      | eexists; repeat split ]
  end.

Section Wrapped.

Variable closure :
  libvirt_go.DomainEventLifecycleCallback ->
  option libvirt_go.Connect -> option libvirt_go.Domain ->
  option libvirt_go.DomainEventLifecycle -> M unit.
Variables (dial : Dialer) (lastError : libvirt_go.Error) (s : State).
Hypothesis Hl : reconnectLock (handle s) = Unlocked.
Hypothesis Ha : alive (handle s) = true.

(** On a live handle each of these operations hands back what the client
    answered, result and error alike, and does no more to the handle than
    the classifier does. *)

Lemma ListSecrets_run answer :
  exists s',
    ListSecrets closure dial answer lastError s = (Return answer, s') /\
    handle s' = classified lastError (handle s).
Proof. unfold ListSecrets. wrapped Hl Ha. Qed.

Lemma LookupSecretByUUIDString_run uuid answer :
  exists s',
    LookupSecretByUUIDString closure uuid dial answer lastError s = (Return answer, s') /\
    handle s' = classified lastError (handle s).
Proof. unfold LookupSecretByUUIDString. wrapped Hl Ha. Qed.

Lemma LookupSecretByUsage_run usageType usageID answer :
  exists s',
    LookupSecretByUsage closure usageType usageID dial answer lastError s =
      (Return answer, s') /\
    handle s' = classified lastError (handle s).
Proof. unfold LookupSecretByUsage. wrapped Hl Ha. Qed.

Lemma SecretDefineXML_run xml answer :
  exists s',
    SecretDefineXML closure xml dial answer lastError s = (Return answer, s') /\
    handle s' = classified lastError (handle s).
Proof. unfold SecretDefineXML. wrapped Hl Ha. Qed.

Lemma LookupGuestByName_run name answer :
  exists s',
    LookupGuestByName closure name dial answer lastError s = (Return answer, s') /\
    handle s' = classified lastError (handle s).
Proof. unfold LookupGuestByName. wrapped Hl Ha. Qed.

Lemma DefineGuestSpec_run xml answer :
  exists s',
    DefineGuestSpec closure xml dial answer lastError s = (Return answer, s') /\
    handle s' = classified lastError (handle s).
Proof. unfold DefineGuestSpec. wrapped Hl Ha. Qed.

(** [NewStream] hands back the stream of the client inside a [VirStream],
    or the error of the client. *)
Lemma NewStream_run flags stream err :
  exists s',
    NewStream closure flags dial (stream, err) lastError s =
      (Return match err with
              | Some e => (None, Some e)
              | None => (Some {| Stream := stream |}, None)
              end, s') /\
    handle s' = classified lastError (handle s).
Proof. unfold NewStream. destruct err; wrapped Hl Ha. Qed.

(** When the client reports an error, the two operations that list objects
    hand it back. *)
Lemma ListAllSecrets_error flags xs e :
  exists s',
    ListAllSecrets closure flags dial (xs, Some e) lastError s =
      (Return ([], Some e), s') /\
    handle s' = classified lastError (handle s).
Proof. unfold ListAllSecrets. wrapped Hl Ha. Qed.

Lemma ListAllGuests_error actives inactives xs e :
  exists s',
    ListAllGuests closure actives inactives dial (xs, Some e) lastError s =
      (Return ([], Some e), s') /\
    handle s' = classified lastError (handle s).
Proof. unfold ListAllGuests. wrapped Hl Ha. Qed.

(** When the client answers with a list, they hand back as many pointers as
    the list is long, all to the one loop variable, which holds the last
    element of the list. *)
Lemma ListAllSecrets_run flags xs :
  exists s',
    ListAllSecrets closure flags dial (xs, None) lastError s =
      (Return (replicate (length xs) (Some (length (heap s))), None), s') /\
    handle s' = classified lastError (handle s) /\
    heap s' = heap s ++ [List.last xs 0%nat].
Proof. unfold ListAllSecrets. wrapped Hl Ha. Qed.


End Wrapped.

(** C5 does not hold of the two operations that list objects.  Asked for all
    guests on a live handle, with the client answering the two domains 11 and
    12 and no error, [ListAllGuests] returns two pointers that both point at
    12: the caller does not get what the client produced. *)
Theorem ListAllGuests_two_domains :
  exists doms s',
    ListAllGuests quiet true true dial_ok ([11%nat; 12%nat], None) no_error
                  (start live_handle) = (Return (doms, None), s') /\
    map (deref (heap s')) doms = [Some 12%nat; Some 12%nat] /\
    map (deref (heap s')) doms <> map Some [11%nat; 12%nat].
Proof.
  eexists _, _. split; [cbv; reflexivity|].
  split; [reflexivity | discriminate].
Qed.

(** The same of [ListAllSecrets]. *)
Lemma ListAllSecrets_two_secrets :
  exists secrets s',
    ListAllSecrets quiet 0 dial_ok ([21%nat; 22%nat], None) no_error
                   (start live_handle) = (Return (secrets, None), s') /\
    map (deref (heap s')) secrets = [Some 22%nat; Some 22%nat].
Proof. eexists _, _. split; [cbv; reflexivity | reflexivity]. Qed.

(** The scenario of the spec: the call succeeds while the last error is an
    rpc-error; the result of the client is returned and the handle is no
    longer alive. *)
Lemma ListSecrets_rpc_error :
  exists s',
    ListSecrets quiet dial_ok (["a"; "b"], None) rpc_error (start live_handle) =
      (Return (["a"; "b"], None), s') /\
    alive (handle s') = false.
Proof.
  destruct (ListSecrets_run quiet dial_ok rpc_error (start live_handle)
              eq_refl eq_refl (["a"; "b"], None)) as (s' & Hrun & Hh).
  exists s'. split; [exact Hrun|]. rewrite Hh. reflexivity.
Qed.

(** ** Registering a callback *)

Lemma classifier_registers_nothing lastError l :
  List.filter is_register (classifier_events lastError l) = [].
Proof. unfold classifier_events. destruct (lost lastError); reflexivity. Qed.

Lemma classified_callbacks lastError l :
  callbacks (classified lastError l) = callbacks l.
Proof. unfold classified. destruct (lost lastError); reflexivity. Qed.

(** C9.  On a live handle with the mutex free, [RegisterGuestEventLifecycle]
    called with a value whose dynamic type is not
    [libvirt_go.DomainEventLifecycleCallback] panics in the type assertion: it
    does not return, with an error or without, the registry is as it was, and
    the client is not asked to register anything. *)
Theorem RegisterGuestEventLifecycle_mistyped closure (callback : interface)
    (dial : Dialer) (answer : Z * error) (lastError : libvirt_go.Error) (s : State) :
  reconnectLock (handle s) = Unlocked ->
  alive (handle s) = true ->
  (forall cb, callback <> LifecycleCallback cb) ->
  exists msg s' t,
    RegisterGuestEventLifecycle closure callback dial answer lastError s =
      (Panic msg, s') /\
    (forall err,
       (RegisterGuestEventLifecycle closure callback dial answer lastError s).1
       <> Return err) /\
    trace s' = trace s ++ t /\
    List.filter is_register t = [] /\
    callbacks (handle s') = callbacks (handle s).
Proof.
  intros Hl Ha Hty.
  assert (exists msg, forall st,
            assert_DomainEventLifecycleCallback callback st = (Panic msg, st))
    as [msg Hmsg].
  { destruct callback as [|cb|ty]; [eexists; reflexivity| |eexists; reflexivity].
    now destruct (Hty cb). }
  unfold RegisterGuestEventLifecycle, mbind, M_bind.
  rewrite (reconnect_alive _ _ _ Hl Ha). cbv beta iota.
  match goal with
  | |- context [defer (checkConnectionLost ?er) ?body ?st] =>
      rewrite (defer_check_panic body msg er st st);
        [| rewrite Hmsg; reflexivity | exact Hl]
  end.
  eexists _, _, _. split; [reflexivity|].
  split; [discriminate|]. simpl. rewrite <- app_assoc.
  split; [reflexivity|].
  split; [|apply classified_callbacks].
  rewrite List.filter_app. simpl. apply classifier_registers_nothing.
Qed.

Lemma RegisterGuestEventLifecycle_mistyped_witness :
  exists msg s',
    RegisterGuestEventLifecycle quiet (OtherValue "func(int)") dial_ok
      (0, None) no_error (start live_handle) = (Panic msg, s') /\
    callbacks (handle s') = [].
Proof.
  destruct (RegisterGuestEventLifecycle_mistyped quiet (OtherValue "func(int)")
              dial_ok (0, None) no_error (start live_handle) eq_refl eq_refl)
    as (msg & s' & t & Hrun & _ & _ & _ & Hcbs).
  - discriminate.
  - exists msg, s'. split; [exact Hrun | exact Hcbs].
Defined.

(** C10.  On a live handle with the mutex free, [RegisterGuestEventLifecycle]
    called with a callback of the right type returns the error of the
    client's registration, nil or not, and leaves the callback at the end of
    the registry either way: the callback was already there when the client
    was asked to register it.  A later successful reconnect of a handle with
    that registry calls the callback. *)
Theorem RegisterGuestEventLifecycle_registers_first closure
    (cb : libvirt_go.DomainEventLifecycleCallback) (dial : Dialer)
    (answer : Z * error) (lastError : libvirt_go.Error) (s : State) :
  reconnectLock (handle s) = Unlocked ->
  alive (handle s) = true ->
  exists s' t at_call,
    RegisterGuestEventLifecycle closure (LifecycleCallback cb) dial answer
                                lastError s = (Return answer.2, s') /\
    trace s' = trace s ++ t /\
    List.filter is_register t =
      [(EvClient (Connect_DomainEventLifecycleRegister cb), at_call)] /\
    callbacks at_call = callbacks (handle s) ++ [cb] /\
    callbacks (handle s') = callbacks (handle s) ++ [cb] /\
    forall dial' c s2,
      reconnectLock (handle s2) = Unlocked ->
      alive (handle s2) = false ->
      callbacks (handle s2) = callbacks (handle s') ->
      dial' (uri (handle s2)) (user (handle s2)) (pass (handle s2)) = (c, None) ->
      Forall (passive closure) (callbacks (handle s2)) ->
      exists s3 at_replay,
        reconnectIfNecessary closure dial' s2 = (Return None, s3) /\
        In (EvCallback cb c None None, at_replay) (trace s3).
Proof.
  intros Hl Ha.
  unfold RegisterGuestEventLifecycle, mbind, M_bind.
  rewrite (reconnect_alive _ _ _ Hl Ha). cbv beta iota.
  match goal with
  | |- context [defer (checkConnectionLost ?er) ?body ?st] =>
      erewrite (defer_check body) with (lastError := er) (s := st); cycle 1;
        [ unfold assert_DomainEventLifecycleCallback, client, modify, emit,
            mbind, M_bind, mret, M_ret; simpl; reflexivity
        | simpl; exact Hl | ]
  end.
  eexists _, _, _. split; [reflexivity|].
  simpl. rewrite <- !app_assoc.
  split; [reflexivity|].
  rewrite !List.filter_app, classifier_registers_nothing. simpl.
  split; [reflexivity|]. split; [reflexivity|].
  split; [apply classified_callbacks|].
  intros dial' c s2 Hl2 Ha2 Hcbs Hd Hp.
  rewrite classified_callbacks in Hcbs. simpl in Hcbs.
  eexists _, _. split; [apply reconnect_succeeded; eassumption|].
  simpl. apply in_or_app. right. right. right.
  apply in_or_app. left. rewrite Hcbs, map_app.
  apply in_or_app. right. left. reflexivity.
Qed.

Lemma RegisterGuestEventLifecycle_registers_first_witness :
  exists s',
    RegisterGuestEventLifecycle quiet (LifecycleCallback 9%nat) dial_ok
      (-1, Some (LibvirtError rpc_error)) rpc_error (start live_handle) =
      (Return (Some (LibvirtError rpc_error)), s') /\
    callbacks (handle s') = [9%nat] /\
    alive (handle s') = false /\
    exists s3 at_replay,
      reconnectIfNecessary quiet dial_ok s' = (Return None, s3) /\
      In (EvCallback 9%nat (Some 2%nat) None None, at_replay) (trace s3).
Proof.
  destruct (RegisterGuestEventLifecycle_registers_first quiet 9%nat dial_ok
              (-1, Some (LibvirtError rpc_error)) rpc_error (start live_handle)
              eq_refl eq_refl)
    as (s' & t & at_call & Hrun & _ & _ & _ & Hcbs & Hreplay).
  exists s'. split; [exact Hrun|]. split; [exact Hcbs|].
  pose proof (f_equal (fun r => alive (handle r.2)) Hrun) as Hal.
  cbv in Hal. symmetry in Hal.
  pose proof (f_equal (fun r => reconnectLock (handle r.2)) Hrun) as Hlk.
  cbv in Hlk. symmetry in Hlk.
  split; [exact Hal|].
  apply (Hreplay dial_ok (Some 2%nat) s' Hlk Hal eq_refl eq_refl).
  rewrite Hcbs. repeat constructor.
Defined.

(** ** Close *)

Lemma close_stop_returns s u s' :
  close_stop s = (Return u, s') ->
  stop (handle s) = ChanOpen /\
  s' = {| handle := with_stop ChanClosed (handle s); heap := heap s;
          trace := trace s ++ [(EvCloseChan, with_stop ChanClosed (handle s))] |}.
Proof.
  unfold close_stop. destruct (stop (handle s)); try discriminate.
  intros [= _ <-]. split; reflexivity.
Qed.

Lemma close_stop_not_blocked s s' : close_stop s <> (Blocked, s').
Proof. unfold close_stop. destruct (stop (handle s)); discriminate. Qed.

(** C7 does not hold of the code: [Close] never returns.  It closes [l.stop]
    when that channel is open, calls itself, and panics in [close], on the
    nil channel at once and otherwise on the channel it has just closed.  All
    it ever does is close the channel: the session is neither released nor
    changed. *)
Theorem Close_panics (s : State) :
  exists msg s' t,
    Close s = (Panic msg, s') /\
    trace s' = trace s ++ t /\
    Forall closes_channel t /\
    Connect (handle s') = Connect (handle s).
Proof.
  funelim (Close s).
  - match goal with
    | IH : exists _ _ _, _ |- _ => destruct IH as (msg & s'' & t & Hrun & Htr & Hcl & Hc)
    end.
    match goal with
    | E : close_stop _ = _ |- _ => destruct (close_stop_returns _ _ _ E) as [_ Hs']
    end.
    rewrite Hs' in Htr, Hc. simpl in Htr, Hc.
    exists msg, s'', ((EvCloseChan, with_stop ChanClosed (handle s)) :: t).
    split; [exact Hrun|]. split; [rewrite Htr, <- app_assoc; reflexivity|].
    split; [constructor; [reflexivity | exact Hcl] | exact Hc].
  - exists msg, s', []. 
    match goal with
    | E : close_stop _ = _ |- _ => pose proof E as Hp
    end.
    unfold close_stop in Hp.
    destruct (stop (handle s)); inversion Hp; subst;
      rewrite app_nil_r; repeat split; constructor.
  - exfalso. eapply close_stop_not_blocked. eassumption.
Qed.

(** On the handle that the dialer makes, whose [stop] was never made. *)
Example Close_dialed :
  forall l n, NewConnection (fun _ => dial_ok) "qemu:///system" "user" "pass" = ((Some l, None), n) ->
  Close (start l) = (Panic "close of nil channel", start l).
Proof. intros l n [= <- _]. reflexivity. Qed.

(** On a handle whose [stop] is open. *)
Example Close_open : (Close (start live_handle)).1 = Panic "close of closed channel".
Proof. reflexivity. Qed.

(** ** The watchdog *)

(** C8.  Take a tick whose reconnect step returns, leaving the state [s1] with
    the mutex free.  If the session then reports itself alive, the tick ends
    there: nothing is changed after the reconnect step, and when the handle was
    alive on entry the tick leaves it as it found it.  If the session reports
    not alive with a nil error, the tick logs that the connection is lost and
    sets [alive] to false itself, under the mutex, and the last error is never
    fetched.  If the session reports not alive with an error, the rest of the
    tick is [checkConnectionLost]. *)
Theorem tick_cases closure (dial : Dialer) (isAlive : bool * error)
    (lastError : libvirt_go.Error) (s : State) (r : error) (s1 : State) :
  reconnectIfNecessary closure dial s = (Return r, s1) ->
  reconnectLock (handle s1) = Unlocked ->
  (forall err, isAlive = (true, err) ->
     tick closure dial isAlive lastError s = (Return tt, asked_alive s1)) /\
  (isAlive = (false, None) ->
     exists s' t,
       tick closure dial isAlive lastError s = (Return tt, s') /\
       handle s' = with_alive false (handle s1) /\
       trace s' = trace (asked_alive s1) ++ t /\
       In (EvLog "Connection to libvirt lost" None, handle s1) t /\
       List.filter is_classifier t = []) /\
  (forall e, isAlive = (false, Some e) ->
     tick closure dial isAlive lastError s =
       checkConnectionLost lastError (asked_alive s1)) /\
  (alive (handle s) = true -> handle s1 = handle s).
Proof.
  intros Hrun Hl. repeat split.
  - intros err ->. unfold tick, mbind, M_bind. rewrite Hrun. reflexivity.
  - intros ->. unfold tick, mbind at 1, M_bind at 1. rewrite Hrun.
    destruct s1 as [l hp tr]; simpl in Hl. run. rewrite Hl. simpl.
    eexists _, _. split; [reflexivity|]. simpl. rewrite <- !app_assoc.
    split; [destruct l; simpl in *; subst; reflexivity|].
    split; [reflexivity|]. split; [left; reflexivity | reflexivity].
  - intros e ->. unfold tick, mbind, M_bind. rewrite Hrun. reflexivity.
  - intros Ha. destruct (reconnectLock (handle s)) eqn:Hl0.
    + rewrite reconnect_alive in Hrun by assumption. now inversion Hrun.
    + rewrite reconnect_blocked in Hrun by assumption. discriminate.
Qed.

Lemma tick_cases_witness :
  (tick quiet dial_ok (true, None) no_error (start lost_handle)).1 = Return tt /\
  (exists s',
     tick quiet dial_ok (false, None) rpc_error (start lost_handle) = (Return tt, s') /\
     alive (handle s') = false) /\
  (exists s1,
     tick quiet dial_ok (false, Some (LibvirtError no_domain)) no_domain (start lost_handle) =
       checkConnectionLost no_domain (asked_alive s1)).
Proof.
  pose (s1 := (reconnectIfNecessary quiet dial_ok (start lost_handle)).2).
  assert (H1 : reconnectIfNecessary quiet dial_ok (start lost_handle) = (Return None, s1))
    by reflexivity.
  assert (H2 : reconnectLock (handle s1) = Unlocked) by reflexivity.
  split; [|split].
  - destruct (tick_cases quiet dial_ok (true, None) no_error _ _ _ H1 H2) as (Ha & _).
    rewrite (Ha None eq_refl). reflexivity.
  - destruct (tick_cases quiet dial_ok (false, None) rpc_error _ _ _ H1 H2)
      as (_ & Hb & _).
    destruct (Hb eq_refl) as (s' & t & Hrun & Hh & _).
    exists s'. split; [exact Hrun|]. rewrite Hh. reflexivity.
  - destruct (tick_cases quiet dial_ok (false, Some (LibvirtError no_domain))
                no_domain _ _ _ H1 H2) as (_ & _ & Hc & _).
    exists s1. apply (Hc _ eq_refl).
Defined.

(** Once [l.stop] is closed the goroutine of the watchdog returns without a
    further tick. *)
Lemma MonitorConnection_stopped closure answers s :
  stop (handle s) = ChanClosed ->
  MonitorConnection closure answers s = (Return tt, s).
Proof.
  intros H. destruct answers as [|a rest]; [reflexivity|].
  simpl. unfold mbind, M_bind, get_handle. rewrite H. reflexivity.
Qed.

(** ** The dialer *)

Section Dialing.

Variables (dials : nat -> Dialer) (uri user pass : string).

Lemma condition_run v :
  condition dials uri user pass v =
    let r := dials (attempts v) uri user pass in
    ((match r.2 with Some _ => false | None => true end, None),
     {| virConn := r.1; attempts := S (attempts v) |}).
Proof.
  unfold condition, newConnection.
  destruct (dials (attempts v) uri user pass) as [c [e|]]; reflexivity.
Qed.

(** Whatever the attempt did, the function literal reports a nil error: the
    poll never gets to see why an attempt failed. *)
Lemma condition_hides_failure v :
  (condition dials uri user pass v).1.2 = None.
Proof.
  rewrite condition_run. reflexivity.
Qed.

Lemma poll_succeeds c : forall N n v,
  (N < n)%nat ->
  (forall k, (k < N)%nat -> (dials (attempts v + k) uri user pass).2 <> None) ->
  dials (attempts v + N)%nat uri user pass = (c, None) ->
  poll n (condition dials uri user pass) v =
    (None, {| virConn := c; attempts := S (attempts v + N) |}).
Proof.
  induction N as [|N IH]; intros n v Hn Hfail Hok;
    (destruct n as [|n]; [lia|]); cbn [poll]; rewrite condition_run.
  - rewrite Nat.add_0_r in *. rewrite Hok. reflexivity.
  - pose proof (Hfail 0%nat ltac:(lia)) as H0. rewrite Nat.add_0_r in H0.
    destruct (dials (attempts v) uri user pass) as [c0 [e|]] eqn:E;
      [|now destruct H0].
    cbn [fst snd].
    rewrite (IH n {| virConn := c0; attempts := S (attempts v) |}); simpl.
    + rewrite Nat.add_succ_r. reflexivity.
    + lia.
    + intros k Hk. specialize (Hfail (S k) ltac:(lia)).
      now rewrite Nat.add_succ_r in Hfail.
    + now rewrite Nat.add_succ_r in Hok.
Qed.

Lemma poll_times_out : forall n v,
  (forall k, (k < n)%nat -> (dials (attempts v + k) uri user pass).2 <> None) ->
  (poll n (condition dials uri user pass) v).1 = Some ErrWaitTimeout.
Proof.
  induction n as [|n IH]; intros v Hfail; cbn [poll]; [reflexivity|].
  rewrite condition_run.
  pose proof (Hfail 0%nat ltac:(lia)) as H0. rewrite Nat.add_0_r in H0.
  destruct (dials (attempts v) uri user pass) as [c0 [e|]] eqn:E;
    [|now destruct H0].
  cbn [fst snd].
  apply IH. simpl. intros k Hk. specialize (Hfail (S k) ltac:(lia)).
  now rewrite Nat.add_succ_r in Hfail.
Qed.

End Dialing.

(** An attempt is within the timeout when it is the first or one of the
    retries. *)
Lemma within_budget (k : nat) :
  Z.of_nat k * ConnectionInterval < ConnectionTimeout <->
  (k < S (retries ConnectionInterval ConnectionTimeout))%nat.
Proof.
  change (retries ConnectionInterval ConnectionTimeout) with 1%nat.
  unfold ConnectionInterval, ConnectionTimeout, Second. lia.
Qed.

(** C6, as the spec has it, fails in its last part: when every attempt is
    refused with a system error, the error that [NewConnection] returns is not
    built from that system error. *)
Lemma NewConnection_discards_failures :
  exists err n,
    NewConnection (fun _ => dial_refused) "qemu:///system" "user" "pass" =
      ((None, Some err), n) /\
    ~ wraps err (LibvirtError system_error).
Proof.
  eexists _, _. split; [reflexivity|].
  simpl. intros [H|[H|[]]]; discriminate H.
Qed.

(** C6, amended.  With the intervals and the timeout of the package, [N]
    failing attempts followed by a success, where [N] intervals are less than
    the timeout, give a live handle on the session of the last attempt after
    [N + 1] attempts.  When every attempt within the timeout fails, the error
    returned is the message of the package around the timeout error of the
    poll, whatever the attempts failed with. *)
Theorem NewConnection_retries (dials : nat -> Dialer) (uri user pass : string) :
  (forall N c,
     Z.of_nat N * ConnectionInterval < ConnectionTimeout ->
     (forall k, (k < N)%nat -> (dials k uri user pass).2 <> None) ->
     dials N uri user pass = (c, None) ->
     NewConnection dials uri user pass =
       ((Some {| Connect := c; user := user; pass := pass; uri := uri;
                 alive := true; stop := ChanNil; reconnectLock := Unlocked;
                 callbacks := [] |}, None), S N)) /\
  ((forall k, Z.of_nat k * ConnectionInterval < ConnectionTimeout ->
              (dials k uri user pass).2 <> None) ->
   (NewConnection dials uri user pass).1 =
     (None, Some (Errorf "cannot connect to libvirt daemon: %v" ErrWaitTimeout))).
Proof.
  split.
  - intros N c HN Hfail Hok. unfold NewConnection, PollImmediate.
    rewrite (poll_succeeds dials uri user pass c N); simpl;
      [reflexivity | apply within_budget, HN | exact Hfail | exact Hok].
  - intros Hfail. unfold NewConnection, PollImmediate.
    pose proof (poll_times_out dials uri user pass
                  (S (retries ConnectionInterval ConnectionTimeout))
                  {| virConn := None; attempts := 0 |}) as H.
    destruct (poll _ _ _) as [err v]. simpl in H.
    rewrite H; [reflexivity|].
    intros k Hk. apply Hfail, within_budget, Hk.
Qed.

Lemma NewConnection_retries_witness :
  (exists l, NewConnection refused_once "qemu:///system" "user" "pass" =
               ((Some l, None), 2%nat) /\ alive l = true) /\
  (NewConnection (fun _ => dial_refused) "qemu:///system" "user" "pass").1 =
    (None, Some (Errorf "cannot connect to libvirt daemon: %v" ErrWaitTimeout)).
Proof.
  split.
  - eexists. split.
    + apply (NewConnection_retries refused_once "qemu:///system" "user" "pass")
        with (N := 1%nat) (c := Some 2%nat).
      * reflexivity.
      * intros k Hk. assert (k = 0%nat) as -> by lia. discriminate.
      * reflexivity.
    + reflexivity.
  - apply (NewConnection_retries (fun _ => dial_refused)).
    intros k _. discriminate.
Defined.

(** ** Further properties of the package *)

(** [VirStream.Close] always calls [Finish] and then [Free], once each.  When
    [Finish] succeeds it returns nil, whatever [Free] answers; it returns an
    error only when both fail, and that error is the one of [Free]. *)
Theorem VirStream_Close_result (finish free : error) :
  (VirStream_Close finish free).2 = [Stream_Finish; Stream_Free] /\
  (finish = None -> (VirStream_Close finish free).1 = None) /\
  (forall e, (VirStream_Close finish free).1 = Some e <->
             finish <> None /\ free = Some e).
Proof.
  unfold VirStream_Close. destruct finish as [f|]; simpl.
  - split; [reflexivity|]. split; [discriminate|].
    intros e. split; [intros ->; split; [discriminate | reflexivity] | intros [_ H]; exact H].
  - split; [reflexivity|]. split; [reflexivity|].
    intros e. split; [discriminate | intros [H _]; now destruct H].
Qed.

Lemma answer_credential_idempotent user pass cred :
  answer_credential user pass (answer_credential user pass cred) =
  answer_credential user pass cred.
Proof.
  unfold answer_credential.
  destruct (libvirt_go.Type' cred =? libvirt_go.CRED_AUTHNAME)%Z eqn:E1; simpl.
  - rewrite E1. reflexivity.
  - destruct (libvirt_go.Type' cred =? libvirt_go.CRED_PASSPHRASE)%Z eqn:E2; simpl.
    + rewrite E1, E2. reflexivity.
    + rewrite E1, E2. reflexivity.
Qed.

Ltac elems :=
  repeat match goal with
  | H : _ ∈ _ :: _ |- _ => apply elem_of_cons in H as [H|H]
  | H : ¬ (_ ∈ _ :: _) |- _ => apply not_elem_of_cons in H as [? ?]
  end;
  try congruence; try contradiction.

Lemma callback_lookup user pass creds : forall mem p,
  callback user pass creds mem !! p =
    (if decide (p ∈ creds) then answer_credential user pass else id) <$> mem !! p.
Proof.
  unfold pointer in *.
  induction creds as [|c rest IH]; intros mem p; simpl.
  - destruct (mem !! p); reflexivity.
  - rewrite IH. destruct (decide (p = c)) as [->|Hne].
    + rewrite list_lookup_alter_eq.
      destruct (mem !! c) as [cred|]; repeat case_decide;
        cbn [fmap option_fmap option_map id];
        rewrite ?answer_credential_idempotent; try reflexivity;
        exfalso; elems.
    + rewrite list_lookup_alter_ne by congruence.
      destruct (mem !! p) as [cred|]; repeat case_decide;
        cbn [fmap option_fmap option_map id];
        try reflexivity; exfalso; elems.
Qed.

(** The credential callback of [newConnection] keeps as many credentials as
    it was given and leaves alone those it was not pointed at.  In a
    credential it was pointed at it changes nothing but [Result] and
    [ResultLen]: the user name and its length when the client asks for the
    authentication name, the password and its length when it asks for the
    passphrase, nothing when it asks for anything else. *)
Theorem callback_answers (user pass : string) (creds : list pointer)
    (mem : list libvirt_go.ConnectCredential) (p : pointer)
    (cred : libvirt_go.ConnectCredential) :
  mem !! p = Some cred ->
  length (callback user pass creds mem) = length mem /\
  (p ∉ creds -> callback user pass creds mem !! p = Some cred) /\
  (p ∈ creds ->
   exists cred',
     callback user pass creds mem !! p = Some cred' /\
     libvirt_go.Type' cred' = libvirt_go.Type' cred /\
     libvirt_go.Prompt cred' = libvirt_go.Prompt cred /\
     libvirt_go.Challenge cred' = libvirt_go.Challenge cred /\
     libvirt_go.DefResult cred' = libvirt_go.DefResult cred /\
     (libvirt_go.Type' cred = libvirt_go.CRED_AUTHNAME ->
      libvirt_go.Result cred' = user /\
      libvirt_go.ResultLen cred' = Z.of_nat (String.length user)) /\
     (libvirt_go.Type' cred = libvirt_go.CRED_PASSPHRASE ->
      libvirt_go.Result cred' = pass /\
      libvirt_go.ResultLen cred' = Z.of_nat (String.length pass)) /\
     (libvirt_go.Type' cred <> libvirt_go.CRED_AUTHNAME ->
      libvirt_go.Type' cred <> libvirt_go.CRED_PASSPHRASE ->
      cred' = cred)).
Proof.
  unfold pointer in *. intros Hp. split; [|split].
  - clear Hp. revert mem. induction creds as [|c rest IH]; intros mem; simpl;
      [reflexivity|]. rewrite IH. apply length_alter.
  - intros Hnin. rewrite callback_lookup, Hp, decide_False by assumption. reflexivity.
  - intros Hin. rewrite callback_lookup, Hp, decide_True by assumption. simpl.
    eexists. split; [reflexivity|]. unfold answer_credential.
    destruct (Z.eqb_spec (libvirt_go.Type' cred) libvirt_go.CRED_AUTHNAME) as [E1|E1];
      [|destruct (Z.eqb_spec (libvirt_go.Type' cred) libvirt_go.CRED_PASSPHRASE)
          as [E2|E2]];
      simpl; repeat split; try reflexivity; try congruence;
      try (intros E; rewrite E in *; discriminate);
      exfalso; rewrite E1 in *; discriminate.
Qed.

Lemma callback_answers_witness :
  exists cred',
    callback "user" "secret" [0%nat; 1%nat; 0%nat]
             [asks_for libvirt_go.CRED_AUTHNAME; asks_for libvirt_go.CRED_PASSPHRASE;
              asks_for 9] !! 0%nat = Some cred' /\
    libvirt_go.Result cred' = "user" /\
    libvirt_go.ResultLen cred' = 4.
Proof.
  destruct (callback_answers "user" "secret" [0%nat; 1%nat; 0%nat]
              [asks_for libvirt_go.CRED_AUTHNAME; asks_for libvirt_go.CRED_PASSPHRASE;
               asks_for 9] 0%nat (asks_for libvirt_go.CRED_AUTHNAME) eq_refl)
    as (_ & _ & H).
  destruct H as (cred' & Hl & _ & _ & _ & _ & Hauth & _).
  - left.
  - exists cred'. split; [exact Hl|]. apply Hauth. reflexivity.
Defined.

(** No domain state is both down and paused, and a running domain is
    neither. *)
Theorem IsDown_IsPaused_disjoint (domState : libvirt_go.DomainState) :
  (IsDown domState = true -> IsPaused domState = false) /\
  (IsPaused domState = true -> IsDown domState = false) /\
  (domState = libvirt_go.DOMAIN_RUNNING ->
   IsDown domState = false /\ IsPaused domState = false).
Proof.
  unfold IsDown, IsPaused. simpl.
  unfold libvirt_go.DOMAIN_NOSTATE, libvirt_go.DOMAIN_SHUTDOWN,
    libvirt_go.DOMAIN_SHUTOFF, libvirt_go.DOMAIN_CRASHED,
    libvirt_go.DOMAIN_PAUSED, libvirt_go.DOMAIN_RUNNING.
  repeat split; try (intros ->; reflexivity);
    destruct (Z.eqb_spec domState 0), (Z.eqb_spec domState 4),
      (Z.eqb_spec domState 5), (Z.eqb_spec domState 6),
      (Z.eqb_spec domState 3); simpl; intros; try reflexivity; try lia;
      try discriminate.
Qed.

Lemma callback_events_app t1 t2 :
  callback_events (t1 ++ t2) = callback_events t1 ++ callback_events t2.
Proof. apply List.filter_app. Qed.

Lemma callback_events_skip ev t :
  is_callback ev = false -> callback_events (ev :: t) = callback_events t.
Proof. intros H. unfold callback_events. simpl. rewrite H. reflexivity. Qed.

Lemma classifier_calls_nothing lastError l :
  callback_events (classifier_events lastError l) = [].
Proof. unfold classifier_events. destruct (lost lastError); reflexivity. Qed.

(** *** The wrapped operations off the live path *)

Ltac wrapped_after Hrec Hl :=
  unfold mbind, M_bind; rewrite Hrec;
  cbv beta iota;
  match goal with
  | |- context [defer (checkConnectionLost ?er) ?body ?st] =>
      erewrite (defer_check body) with (lastError := er) (s := st);
      cycle 1;
      [ unfold client, mbind, M_bind, mret, M_ret, emit; simpl;
        rewrite ?addresses_of_run; reflexivity
      | simpl; exact Hl
      | eexists; repeat split ]
  end.

Section Unreachable.

Variable closure :
  libvirt_go.DomainEventLifecycleCallback ->
  option libvirt_go.Connect -> option libvirt_go.Domain ->
  option libvirt_go.DomainEventLifecycle -> M unit.
Variables (dial : Dialer) (lastError : libvirt_go.Error) (s : State).
Variables (c : option libvirt_go.Connect) (e : error_value).
Hypothesis Hl : reconnectLock (handle s) = Unlocked.
Hypothesis Ha : alive (handle s) = false.
Hypothesis Hd : dial (uri (handle s)) (user (handle s)) (pass (handle s)) = (c, Some e).

(** On a handle that is not alive, when the reconnect fails, every wrapped
    operation returns the error of the dial with the zero value of its
    result, and leaves the state exactly as the failed reconnect alone leaves
    it: the client is not called, the classifier does not run, the handle
    stays not alive and the registry is as it was.  For
    [RegisterGuestEventLifecycle] that holds of any argument, so a callback of
    the wrong type gets the error and no panic. *)
Theorem wrapped_operations_unreachable :
  let s' := (reconnectIfNecessary closure dial s).2 in
  alive (handle s') = false /\
  callbacks (handle s') = callbacks (handle s) /\
  (forall flags answer,
     NewStream closure flags dial answer lastError s = (Return (None, Some e), s')) /\
  (forall answer,
     ListSecrets closure dial answer lastError s = (Return ([], Some e), s')) /\
  (forall uuid answer,
     LookupSecretByUUIDString closure uuid dial answer lastError s =
       (Return (None, Some e), s')) /\
  (forall usageType usageID answer,
     LookupSecretByUsage closure usageType usageID dial answer lastError s =
       (Return (None, Some e), s')) /\
  (forall flags answer,
     ListAllSecrets closure flags dial answer lastError s = (Return ([], Some e), s')) /\
  (forall xml answer,
     SecretDefineXML closure xml dial answer lastError s = (Return (None, Some e), s')) /\
  (forall callback answer,
     RegisterGuestEventLifecycle closure callback dial answer lastError s =
       (Return (Some e), s')) /\
  (forall name answer,
     LookupGuestByName closure name dial answer lastError s =
       (Return (None, Some e), s')) /\
  (forall xml answer,
     DefineGuestSpec closure xml dial answer lastError s = (Return (None, Some e), s')) /\
  (forall actives inactives answer,
     ListAllGuests closure actives inactives dial answer lastError s =
       (Return ([], Some e), s')).
Proof.
  pose proof (reconnect_failed closure dial s c e Hl Ha Hd) as Hrec.
  rewrite Hrec. simpl.
  split; [exact Ha|]. split; [reflexivity|].
  repeat split; intros;
    unfold NewStream, ListSecrets, LookupSecretByUUIDString, LookupSecretByUsage,
      ListAllSecrets, SecretDefineXML, RegisterGuestEventLifecycle,
      LookupGuestByName, DefineGuestSpec, ListAllGuests, mbind, M_bind;
    rewrite Hrec; reflexivity.
Qed.

End Unreachable.

Lemma wrapped_operations_unreachable_witness :
  RegisterGuestEventLifecycle quiet nil_interface dial_refused (0, None) no_error
                              (start lost_handle) =
    (Return (Some (LibvirtError system_error)),
     (reconnectIfNecessary quiet dial_refused (start lost_handle)).2).
Proof.
  apply (wrapped_operations_unreachable quiet dial_refused no_error
           (start lost_handle) None (LibvirtError system_error)
           eq_refl eq_refl eq_refl).
Defined.

Section Held.

Variable closure :
  libvirt_go.DomainEventLifecycleCallback ->
  option libvirt_go.Connect -> option libvirt_go.Domain ->
  option libvirt_go.DomainEventLifecycle -> M unit.
Variables (dial : Dialer) (lastError : libvirt_go.Error) (s : State).
Hypothesis Hl : reconnectLock (handle s) = Locked.

(** Called while the mutex is held, every wrapped operation, the tick of the
    watchdog and the classifier stop at the mutex before they have done
    anything: the state is untouched. *)
Theorem wrapped_operations_block :
  (forall flags answer,
     NewStream closure flags dial answer lastError s = (Blocked, s)) /\
  (forall answer, ListSecrets closure dial answer lastError s = (Blocked, s)) /\
  (forall uuid answer,
     LookupSecretByUUIDString closure uuid dial answer lastError s = (Blocked, s)) /\
  (forall usageType usageID answer,
     LookupSecretByUsage closure usageType usageID dial answer lastError s =
       (Blocked, s)) /\
  (forall flags answer,
     ListAllSecrets closure flags dial answer lastError s = (Blocked, s)) /\
  (forall xml answer,
     SecretDefineXML closure xml dial answer lastError s = (Blocked, s)) /\
  (forall callback answer,
     RegisterGuestEventLifecycle closure callback dial answer lastError s =
       (Blocked, s)) /\
  (forall name answer,
     LookupGuestByName closure name dial answer lastError s = (Blocked, s)) /\
  (forall xml answer,
     DefineGuestSpec closure xml dial answer lastError s = (Blocked, s)) /\
  (forall actives inactives answer,
     ListAllGuests closure actives inactives dial answer lastError s = (Blocked, s)) /\
  (forall isAlive, tick closure dial isAlive lastError s = (Blocked, s)) /\
  checkConnectionLost lastError s = (Blocked, s).
Proof.
  pose proof (reconnect_blocked closure dial s Hl) as Hrec.
  repeat split; intros;
    unfold NewStream, ListSecrets, LookupSecretByUUIDString, LookupSecretByUsage,
      ListAllSecrets, SecretDefineXML, RegisterGuestEventLifecycle,
      LookupGuestByName, DefineGuestSpec, ListAllGuests, tick, mbind, M_bind;
    rewrite ?Hrec; try reflexivity.
  unfold checkConnectionLost, mbind, M_bind, Lock. rewrite Hl. reflexivity.
Qed.

End Held.

Lemma wrapped_operations_block_witness :
  ListAllGuests quiet true false dial_ok ([], None) no_error
                (start (locked live_handle)) =
    (Blocked, start (locked live_handle)).
Proof.
  apply (wrapped_operations_block quiet dial_ok no_error
           (start (locked live_handle)) eq_refl).
Defined.

(** On a live handle with the mutex free, the operations that look up, list
    or define one object return the answer of the client as it is, result and
    error, and [NewStream] returns the stream wrapped in a [VirStream] or the
    error; all the handle can lose is [alive], by the classifier. *)
Theorem wrapped_operations_live closure (dial : Dialer)
    (lastError : libvirt_go.Error) (s : State) :
  reconnectLock (handle s) = Unlocked ->
  alive (handle s) = true ->
  let returns {A} (run : Outcome A * State) (a : A) :=
    exists s', run = (Return a, s') /\
               handle s' = classified lastError (handle s) in
  (forall answer, returns (ListSecrets closure dial answer lastError s) answer) /\
  (forall uuid answer,
     returns (LookupSecretByUUIDString closure uuid dial answer lastError s) answer) /\
  (forall usageType usageID answer,
     returns (LookupSecretByUsage closure usageType usageID dial answer lastError s)
             answer) /\
  (forall xml answer,
     returns (SecretDefineXML closure xml dial answer lastError s) answer) /\
  (forall name answer,
     returns (LookupGuestByName closure name dial answer lastError s) answer) /\
  (forall xml answer,
     returns (DefineGuestSpec closure xml dial answer lastError s) answer) /\
  (forall flags stream,
     returns (NewStream closure flags dial (stream, None) lastError s)
             (Some {| Stream := stream |}, None)) /\
  (forall flags stream e,
     returns (NewStream closure flags dial (stream, Some e) lastError s)
             (None, Some e)).
Proof.
  intros Hl Ha returns. unfold returns. repeat split; intros.
  - apply ListSecrets_run; assumption.
  - apply LookupSecretByUUIDString_run; assumption.
  - apply LookupSecretByUsage_run; assumption.
  - apply SecretDefineXML_run; assumption.
  - apply LookupGuestByName_run; assumption.
  - apply DefineGuestSpec_run; assumption.
  - apply (NewStream_run closure dial lastError s Hl Ha flags stream None).
  - apply (NewStream_run closure dial lastError s Hl Ha flags stream (Some e)).
Qed.

Lemma wrapped_operations_live_witness :
  exists s',
    LookupGuestByName quiet "vm" dial_ok (None, Some (LibvirtError no_domain))
                      no_domain (start live_handle) =
      (Return (None, Some (LibvirtError no_domain)), s') /\
    handle s' = live_handle.
Proof.
  destruct (wrapped_operations_live quiet dial_ok no_domain (start live_handle)
              eq_refl eq_refl) as (_ & _ & _ & _ & H & _).
  destruct (H "vm" (None, Some (LibvirtError no_domain))) as (s' & Hrun & Hh).
  exists s'. split; [exact Hrun | rewrite Hh; reflexivity].
Defined.

Section Recovery.

Variable closure :
  libvirt_go.DomainEventLifecycleCallback ->
  option libvirt_go.Connect -> option libvirt_go.Domain ->
  option libvirt_go.DomainEventLifecycle -> M unit.
Variables (dial : Dialer) (lastError : libvirt_go.Error) (s : State).
Variable c : option libvirt_go.Connect.
Hypothesis Hl : reconnectLock (handle s) = Unlocked.
Hypothesis Ha : alive (handle s) = false.
Hypothesis Hd : dial (uri (handle s)) (user (handle s)) (pass (handle s)) = (c, None).
Hypothesis Hp : Forall (passive closure) (callbacks (handle s)).

Let Hrec := reconnect_succeeded closure dial s c Hl Ha Hd Hp.

(** On a handle that is not alive, when the reconnect succeeds and the
    callbacks return, the operation goes on as on a live handle: it returns
    the answer of the client, and the handle is the reconnected one, as the
    classifier leaves it. *)
Theorem wrapped_operations_recover :
  let returns {A} (run : Outcome A * State) (a : A) :=
    exists s', run = (Return a, s') /\
               handle s' = classified lastError (reconnected c (handle s)) in
  (forall answer, returns (ListSecrets closure dial answer lastError s) answer) /\
  (forall uuid answer,
     returns (LookupSecretByUUIDString closure uuid dial answer lastError s) answer) /\
  (forall usageType usageID answer,
     returns (LookupSecretByUsage closure usageType usageID dial answer lastError s)
             answer) /\
  (forall xml answer,
     returns (SecretDefineXML closure xml dial answer lastError s) answer) /\
  (forall name answer,
     returns (LookupGuestByName closure name dial answer lastError s) answer) /\
  (forall xml answer,
     returns (DefineGuestSpec closure xml dial answer lastError s) answer).
Proof.
  intros returns. unfold returns. repeat split; intros.
  - unfold ListSecrets. wrapped_after Hrec Hl.
  - unfold LookupSecretByUUIDString. wrapped_after Hrec Hl.
  - unfold LookupSecretByUsage. wrapped_after Hrec Hl.
  - unfold SecretDefineXML. wrapped_after Hrec Hl.
  - unfold LookupGuestByName. wrapped_after Hrec Hl.
  - unfold DefineGuestSpec. wrapped_after Hrec Hl.
Qed.

(** Registering on a handle that is not alive, when the reconnect succeeds:
    the callbacks registered before are notified, once each and in order, the
    registry is drained, and the new callback is then the only one in it. *)
Theorem RegisterGuestEventLifecycle_after_loss
    (cb : libvirt_go.DomainEventLifecycleCallback) (answer : Z * error) :
  exists s' t,
    RegisterGuestEventLifecycle closure (LifecycleCallback cb) dial answer
                                lastError s = (Return answer.2, s') /\
    trace s' = trace s ++ t /\
    callback_events t =
      map (notification c (locked (reconnected c (handle s)))) (callbacks (handle s)) /\
    callbacks (handle s') = [cb] /\
    Connect (handle s') = c.
Proof.
  unfold RegisterGuestEventLifecycle, mbind, M_bind. rewrite Hrec.
  cbv beta iota.
  match goal with
  | |- context [defer (checkConnectionLost ?er) ?body ?st] =>
      erewrite (defer_check body) with (lastError := er) (s := st); cycle 1;
        [ unfold assert_DomainEventLifecycleCallback, client, modify, emit,
            mbind, M_bind, mret, M_ret; simpl; reflexivity
        | simpl; exact Hl | ]
  end.
  eexists _, _. split; [reflexivity|]. cbn [trace handle heap].
  rewrite <- !app_assoc. split; [reflexivity|].
  split.
  - rewrite !callback_events_app, classifier_calls_nothing.
    rewrite !callback_events_skip by reflexivity.
    rewrite callback_events_app, callback_events_notifications.
    simpl. rewrite !app_nil_r. reflexivity.
  - unfold classified. destruct (lost lastError); split; reflexivity.
Qed.

End Recovery.

Lemma wrapped_operations_recover_witness :
  exists s',
    ListSecrets quiet dial_ok (["a"], None) no_error (start lost_handle) =
      (Return (["a"], None), s') /\
    alive (handle s') = true /\ Connect (handle s') = Some 2%nat.
Proof.
  destruct (wrapped_operations_recover quiet dial_ok no_error (start lost_handle)
              (Some 2%nat) eq_refl eq_refl eq_refl) as (H & _).
  { repeat constructor. }
  destruct (H (["a"], None)) as (s' & Hrun & Hh).
  exists s'. split; [exact Hrun|]. rewrite Hh. split; reflexivity.
Defined.

Lemma RegisterGuestEventLifecycle_after_loss_witness :
  exists s' t,
    RegisterGuestEventLifecycle quiet (LifecycleCallback 9%nat) dial_ok (0, None)
                                no_error (start lost_handle) = (Return None, s') /\
    trace s' = t /\
    length (callback_events t) = 2%nat /\
    callbacks (handle s') = [9%nat].
Proof.
  destruct (RegisterGuestEventLifecycle_after_loss quiet dial_ok no_error
              (start lost_handle) (Some 2%nat) eq_refl eq_refl eq_refl)
    with (cb := 9%nat) (answer := (0, @None error_value))
    as (s' & t & Hrun & Ht & Hev & Hcbs & _).
  { repeat constructor. }
  exists s', t. split; [exact Hrun|]. split; [exact Ht|].
  split; [rewrite Hev; reflexivity | exact Hcbs].
Defined.

(** *** Panics and the mutex *)

(** When [RegisterGuestEventLifecycle] panics on an argument of the wrong
    type, the deferred classifier still runs and the mutex is free afterwards:
    the handle is the one the classifier leaves, not alive when the last error
    is one of the seven. *)
Theorem RegisterGuestEventLifecycle_mistyped_classifies closure
    (callback : interface) (dial : Dialer) (answer : Z * error)
    (lastError : libvirt_go.Error) (s : State) :
  reconnectLock (handle s) = Unlocked ->
  alive (handle s) = true ->
  (forall cb, callback <> LifecycleCallback cb) ->
  exists msg s',
    RegisterGuestEventLifecycle closure callback dial answer lastError s =
      (Panic msg, s') /\
    handle s' = classified lastError (handle s) /\
    reconnectLock (handle s') = Unlocked /\
    (lost lastError = true -> alive (handle s') = false).
Proof.
  intros Hl Ha Hty.
  assert (exists msg, forall st,
            assert_DomainEventLifecycleCallback callback st = (Panic msg, st))
    as [msg Hmsg].
  { destruct callback as [|cb|ty]; [eexists; reflexivity| |eexists; reflexivity].
    now destruct (Hty cb). }
  unfold RegisterGuestEventLifecycle, mbind, M_bind.
  rewrite (reconnect_alive _ _ _ Hl Ha). cbv beta iota.
  match goal with
  | |- context [defer (checkConnectionLost ?er) ?body ?st] =>
      rewrite (defer_check_panic body msg er st st);
        [| rewrite Hmsg; reflexivity | exact Hl]
  end.
  eexists _, _. split; [reflexivity|]. simpl.
  split; [reflexivity|]. unfold classified.
  destruct (lost lastError); simpl; split; try exact Hl; try reflexivity;
    intros; try reflexivity; discriminate.
Qed.

Lemma RegisterGuestEventLifecycle_mistyped_classifies_witness :
  exists msg s',
    RegisterGuestEventLifecycle quiet nil_interface dial_ok (0, None) rpc_error
                                (start live_handle) = (Panic msg, s') /\
    reconnectLock (handle s') = Unlocked /\
    alive (handle s') = false.
Proof.
  destruct (RegisterGuestEventLifecycle_mistyped_classifies quiet nil_interface
              dial_ok (0, None) rpc_error (start live_handle) eq_refl eq_refl)
    as (msg & s' & Hrun & _ & Hlock & Hlost).
  - discriminate.
  - exists msg, s'. split; [exact Hrun|]. split; [exact Hlock|].
    apply Hlost. reflexivity.
Defined.

(** *** Listing *)



(** The same of [ListAllSecrets] and the secrets of the client. *)
Theorem ListAllSecrets_points_at_last closure (flags : Z)
    (dial : Dialer) (xs : list libvirt_go.Secret) (lastError : libvirt_go.Error)
    (s : State) :
  reconnectLock (handle s) = Unlocked ->
  alive (handle s) = true ->
  exists secrets s',
    ListAllSecrets closure flags dial (xs, None) lastError s =
      (Return (secrets, None), s') /\
    map (deref (heap s')) secrets =
      replicate (length xs) (Some (List.last xs 0%nat)) /\
    ((length xs <= 1)%nat -> map (deref (heap s')) secrets = map Some xs).
Proof.
  intros Hl Ha.
  destruct (ListAllSecrets_run closure dial lastError s Hl Ha flags xs)
    as (s' & Hrun & _ & Hheap).
  eexists _, s'. split; [exact Hrun|].
  assert (map (deref (heap s')) (replicate (length xs) (Some (length (heap s)))) =
          replicate (length xs) (Some (List.last xs 0%nat))) as Hmap.
  { rewrite Hheap. generalize (length xs). intros n.
    induction n as [|n IH]; simpl; [reflexivity|].
    rewrite IH. f_equal. rewrite lookup_app_r by lia.
    rewrite Nat.sub_diag. reflexivity. }
  split; [exact Hmap|].
  intros Hlen. rewrite Hmap.
  destruct xs as [|x [|y rest]]; simpl in *; try reflexivity; lia.
Qed.

Lemma ListAllSecrets_points_at_last_witness :
  exists secrets s',
    ListAllSecrets quiet 0 dial_ok ([21%nat], None) no_error
                   (start live_handle) = (Return (secrets, None), s') /\
    map (deref (heap s')) secrets = [Some 21%nat].
Proof.
  destruct (ListAllSecrets_points_at_last quiet 0 dial_ok [21%nat] no_error
              (start live_handle) eq_refl eq_refl)
    as (secrets & s' & Hrun & Hmap & _).
  exists secrets, s'. split; [exact Hrun | exact Hmap].
Defined.

(** On a live handle [ListAllGuests] asks the client once, with flags 0 (no
    filter) when neither kind is wanted, 1 for the active domains, 2 for the
    inactive ones and 3 for both. *)
Theorem ListAllGuests_flags closure (actives inactives : bool) (dial : Dialer)
    (answer : list libvirt_go.Domain * error) (lastError : libvirt_go.Error)
    (s : State) :
  reconnectLock (handle s) = Unlocked ->
  alive (handle s) = true ->
  let asked :=
    List.filter is_list_domains
      (trace (ListAllGuests closure actives inactives dial answer lastError s).2) in
  asked =
    List.filter is_list_domains (trace s) ++
    [(EvClient (Connect_ListAllDomains
                  (match actives, inactives with
                   | false, false => 0
                   | true, false => 1
                   | false, true => 2
                   | true, true => 3
                   end)), handle s)].
Proof.
  intros Hl Ha asked. unfold asked, ListAllGuests, mbind, M_bind.
  rewrite (reconnect_alive _ _ _ Hl Ha). cbv beta iota.
  destruct answer as [xs [e|]].
  - match goal with
    | |- context [defer (checkConnectionLost ?er) ?body ?st] =>
        erewrite (defer_check body) with (lastError := er) (s := st); cycle 1;
          [ unfold client, mbind, M_bind, mret, M_ret, emit; simpl; reflexivity
          | simpl; exact Hl | ]
    end.
    cbn [snd trace handle heap]. rewrite !List.filter_app.
    destruct actives, inactives; unfold classifier_events;
      destruct (lost lastError); simpl; rewrite ?app_nil_r; reflexivity.
  - match goal with
    | |- context [defer (checkConnectionLost ?er) ?body ?st] =>
        erewrite (defer_check body) with (lastError := er) (s := st); cycle 1;
          [ unfold client, mbind, M_bind, mret, M_ret, emit; simpl;
            rewrite addresses_of_run; reflexivity
          | simpl; exact Hl | ]
    end.
    cbn [snd trace handle heap]. rewrite !List.filter_app.
    destruct actives, inactives; unfold classifier_events;
      destruct (lost lastError); simpl; rewrite ?app_nil_r; reflexivity.
Qed.

Lemma ListAllGuests_flags_witness :
  List.filter is_list_domains
    (trace (ListAllGuests quiet false false dial_ok ([], None) no_error
                          (start live_handle)).2) =
  [(EvClient (Connect_ListAllDomains 0), live_handle)].
Proof.
  apply (ListAllGuests_flags quiet false false dial_ok ([], None) no_error
           (start live_handle) eq_refl eq_refl).
Defined.

(** *** Reconnecting, further *)

Lemma alive_queries_notifications c l cbs :
  List.filter is_alive_query (map (notification c l) cbs) = [].
Proof. induction cbs as [|cb rest IH]; simpl; [reflexivity | exact IH]. Qed.

Lemma alive_queries_classifier lastError l :
  List.filter is_alive_query (classifier_events lastError l) = [].
Proof. unfold classifier_events. destruct (lost lastError); reflexivity. Qed.

Lemma reconnect_returns closure (dial : Dialer) (s : State) :
  reconnectLock (handle s) = Unlocked ->
  Forall (passive closure) (callbacks (handle s)) ->
  exists r s' t,
    reconnectIfNecessary closure dial s = (Return r, s') /\
    trace s' = trace s ++ t /\
    List.filter is_alive_query t = [] /\
    heap s' = heap s /\
    reconnectLock (handle s') = Unlocked /\
    uri (handle s') = uri (handle s) /\
    user (handle s') = user (handle s) /\
    pass (handle s') = pass (handle s) /\
    stop (handle s') = stop (handle s) /\
    (callbacks (handle s') = callbacks (handle s) \/ callbacks (handle s') = []) /\
    (r = None <-> alive (handle s') = true) /\
    Connect (handle s') =
      (if alive (handle s) then Connect (handle s)
       else (dial (uri (handle s)) (user (handle s)) (pass (handle s))).1).
Proof.
  intros Hl Hp. destruct (alive (handle s)) eqn:Ha.
  - eexists _, _, _. split; [apply reconnect_alive; assumption|].
    simpl. repeat split; intros; try assumption; try reflexivity.
    left; reflexivity.
  - destruct (dial (uri (handle s)) (user (handle s)) (pass (handle s)))
      as [c [e|]] eqn:Hd.
    + eexists _, _, _. split; [eapply reconnect_failed; eassumption|].
      simpl. repeat split; intros; try assumption; try reflexivity;
        try discriminate; try congruence.
      left; reflexivity.
    + eexists _, _, _. split; [eapply reconnect_succeeded; eassumption|].
      cbn [trace handle heap]. split; [reflexivity|].
      split.
      { rewrite !List.filter_app, alive_queries_notifications. reflexivity. }
      simpl. repeat split; intros; try assumption; try reflexivity.
      right; reflexivity.
Qed.

(** When the callbacks return, [reconnectIfNecessary] called with the mutex
    free returns with the mutex free, keeps the URI, the user, the password
    and the stop channel of the handle, and returns nil exactly when it leaves
    the handle alive. *)
Theorem reconnect_keeps_credentials closure (dial : Dialer) (s : State) :
  reconnectLock (handle s) = Unlocked ->
  Forall (passive closure) (callbacks (handle s)) ->
  exists r s',
    reconnectIfNecessary closure dial s = (Return r, s') /\
    uri (handle s') = uri (handle s) /\
    user (handle s') = user (handle s) /\
    pass (handle s') = pass (handle s) /\
    stop (handle s') = stop (handle s) /\
    reconnectLock (handle s') = Unlocked /\
    (r = None <-> alive (handle s') = true).
Proof.
  intros Hl Hp.
  destruct (reconnect_returns closure dial s Hl Hp)
    as (r & s' & t & Hrun & _ & _ & _ & Hlk & Hu & Hus & Hpa & Hst & _ & Hr & _).
  exists r, s'. repeat split; try assumption; apply Hr.
Qed.

Lemma reconnect_keeps_credentials_witness :
  exists r s',
    reconnectIfNecessary quiet dial_refused (start lost_handle) = (Return r, s') /\
    uri (handle s') = "qemu:///system" /\
    user (handle s') = "user" /\
    pass (handle s') = "pass" /\
    reconnectLock (handle s') = Unlocked /\
    alive (handle s') = false.
Proof.
  destruct (reconnect_keeps_credentials quiet dial_refused (start lost_handle) eq_refl)
    as (r & s' & Hrun & Hu & Hus & Hpa & _ & Hlk & Hr).
  { repeat constructor. }
  exists r, s'. repeat split; try assumption.
  pose proof (f_equal (fun x => alive (handle x.2)) Hrun) as Hal.
  cbv in Hal. symmetry. exact Hal.
Defined.

(** After a successful reconnect a second call of [reconnectIfNecessary]
    does nothing to the handle: it does not dial and calls no callback,
    whatever the client would answer. *)
Theorem reconnect_twice closure (dial dial' : Dialer) (s : State)
    (c : option libvirt_go.Connect) :
  reconnectLock (handle s) = Unlocked ->
  alive (handle s) = false ->
  dial (uri (handle s)) (user (handle s)) (pass (handle s)) = (c, None) ->
  Forall (passive closure) (callbacks (handle s)) ->
  exists s1 s2 t,
    reconnectIfNecessary closure dial s = (Return None, s1) /\
    reconnectIfNecessary closure dial' s1 = (Return None, s2) /\
    handle s2 = handle s1 /\
    trace s2 = trace s1 ++ t /\
    List.filter is_dial t = [] /\
    callback_events t = [].
Proof.
  intros Hl Ha Hd Hp.
  eexists _, _, _. split; [apply reconnect_succeeded; eassumption|].
  split; [apply reconnect_alive; [exact Hl | reflexivity]|].
  simpl. repeat split.
Qed.

Lemma reconnect_twice_witness :
  exists s1 s2,
    reconnectIfNecessary quiet dial_ok (start lost_handle) = (Return None, s1) /\
    reconnectIfNecessary quiet dial_refused s1 = (Return None, s2) /\
    handle s2 = handle s1.
Proof.
  destruct (reconnect_twice quiet dial_ok dial_refused (start lost_handle)
              (Some 2%nat) eq_refl eq_refl eq_refl)
    as (s1 & s2 & t & H1 & H2 & Hh & _).
  { repeat constructor. }
  exists s1, s2. repeat split; assumption.
Defined.

Lemma notify_panics closure msg pre cb post s :
  Forall (passive closure) pre ->
  panics closure msg cb ->
  notify closure (pre ++ cb :: post) s =
    (Panic msg,
     {| handle := handle s; heap := heap s;
        trace := trace s ++
                 map (notification (Connect (handle s)) (handle s)) (pre ++ [cb]) |}).
Proof.
  intros Hp Hcb. revert s. induction Hp as [|cb0 rest Hcb0 _ IH]; intros [l hp tr].
  - simpl. unfold call. run. rewrite Hcb. reflexivity.
  - simpl notify. unfold call. run. rewrite Hcb0. rewrite IH. simpl.
    rewrite <- app_assoc. reflexivity.
Qed.

(** When a callback panics during the notifications of a successful
    reconnect, the panic goes up with the mutex released and the handle alive
    on the new session; the registry is already empty, so the callbacks
    registered after the one that panicked are dropped without having been
    notified. *)
Theorem reconnect_callback_panics closure (dial : Dialer) (s : State)
    (c : option libvirt_go.Connect)
    (pre : list libvirt_go.DomainEventLifecycleCallback)
    (cb : libvirt_go.DomainEventLifecycleCallback)
    (post : list libvirt_go.DomainEventLifecycleCallback) (msg : string) :
  reconnectLock (handle s) = Unlocked ->
  alive (handle s) = false ->
  dial (uri (handle s)) (user (handle s)) (pass (handle s)) = (c, None) ->
  callbacks (handle s) = pre ++ cb :: post ->
  Forall (passive closure) pre ->
  panics closure msg cb ->
  exists s' t,
    reconnectIfNecessary closure dial s = (Panic msg, s') /\
    trace s' = trace s ++ t /\
    callback_events t =
      map (notification c (locked (reconnected c (handle s)))) (pre ++ [cb]) /\
    handle s' = reconnected c (handle s) /\
    callbacks (handle s') = [] /\
    alive (handle s') = true /\
    reconnectLock (handle s') = Unlocked.
Proof.
  intros Hl Ha Hd Hcbs Hp Hcb. unfold reconnectIfNecessary, newConnection.
  destruct s as [l hp tr]; simpl in *.
  run. rewrite Hl. simpl. rewrite Ha. simpl. rewrite Hd. simpl.
  rewrite Hcbs. rewrite (notify_panics closure msg pre cb post) by assumption.
  simpl. eexists _, _. split; [reflexivity|]. simpl.
  rewrite <- !app_assoc. split; [reflexivity|].
  split.
  - rewrite !callback_events_app, callback_events_notifications.
    simpl. rewrite app_nil_r. reflexivity.
  - repeat split; try exact Hl.
    unfold reconnected. destruct l; simpl in *; subst; reflexivity.
Qed.

Lemma reconnect_callback_panics_witness :
  exists s' t,
    reconnectIfNecessary panics_on_8 dial_ok
      (start (with_callbacks [7%nat; 8%nat; 9%nat] lost_handle)) =
      (Panic "watcher gone", s') /\
    trace s' = t /\
    length (callback_events t) = 2%nat /\
    callbacks (handle s') = [].
Proof.
  destruct (reconnect_callback_panics panics_on_8 dial_ok
              (start (with_callbacks [7%nat; 8%nat; 9%nat] lost_handle))
              (Some 2%nat) [7%nat] 8%nat [9%nat] "watcher gone"
              eq_refl eq_refl eq_refl eq_refl)
    as (s' & t & Hrun & Ht & Hev & _ & Hcbs & _).
  - repeat constructor.
  - intros c d e s. reflexivity.
  - exists s', t. split; [exact Hrun|]. split; [exact Ht|].
    split; [rewrite Hev; reflexivity | exact Hcbs].
Defined.

(** *** The watchdog, further *)

Lemma tick_returns closure (dial : Dialer) (isAlive : bool * error)
    (lastError : libvirt_go.Error) (s : State) :
  reconnectLock (handle s) = Unlocked ->
  Forall (passive closure) (callbacks (handle s)) ->
  exists s' t,
    tick closure dial isAlive lastError s = (Return tt, s') /\
    trace s' = trace s ++ t /\
    length (List.filter is_alive_query t) = 1%nat /\
    reconnectLock (handle s') = Unlocked /\
    stop (handle s') = stop (handle s) /\
    (callbacks (handle s') = callbacks (handle s) \/ callbacks (handle s') = []) /\
    Connect (handle s') =
      (if alive (handle s) then Connect (handle s)
       else (dial (uri (handle s)) (user (handle s)) (pass (handle s))).1).
Proof.
  intros Hl Hp.
  destruct (reconnect_returns closure dial s Hl Hp)
    as (r & s1 & t1 & Hrun & Htr & Hq & _ & Hlk & _ & _ & _ & Hst & Hcbs & _ & Hc).
  destruct isAlive as [[|] err].
  - unfold tick, mbind, M_bind. rewrite Hrun.
    eexists _, _. split; [reflexivity|]. simpl. rewrite Htr, <- app_assoc.
    split; [reflexivity|]. rewrite List.filter_app, Hq.
    repeat split; assumption.
  - destruct err as [e|].
    + unfold tick, mbind, M_bind. rewrite Hrun. unfold client, mbind, M_bind, mret, M_ret, emit.
      cbv beta iota.
      match goal with
      | |- context [checkConnectionLost ?er ?st] =>
          rewrite (checkConnectionLost_run er st) by exact Hlk
      end.
      eexists _, _. split; [reflexivity|]. cbn [trace handle heap].
      rewrite Htr, <- !app_assoc. split; [reflexivity|].
      rewrite !List.filter_app, Hq, alive_queries_classifier.
      split; [reflexivity|].
      unfold classified. destruct (lost lastError); simpl; repeat split; assumption.
    + unfold tick, mbind at 1, M_bind at 1. rewrite Hrun.
      destruct s1 as [l1 hp1 tr1]; simpl in *. run. rewrite Hlk. simpl.
      eexists _, _. split; [reflexivity|]. simpl. rewrite Htr, <- !app_assoc.
      split; [reflexivity|]. rewrite List.filter_app, Hq.
      repeat split; assumption.
Qed.

(** A tick whose reconnect fails ignores the error and still asks the
    session whether it is alive: the call is made on the pointer that the
    failed dial returned, with the handle not alive. *)
Theorem tick_unreachable closure (dial : Dialer) (isAlive : bool * error)
    (lastError : libvirt_go.Error) (s : State)
    (c : option libvirt_go.Connect) (e : error_value) :
  reconnectLock (handle s) = Unlocked ->
  alive (handle s) = false ->
  dial (uri (handle s)) (user (handle s)) (pass (handle s)) = (c, Some e) ->
  exists at_call,
    In (EvClient Connect_IsAlive, at_call)
       (trace (tick closure dial isAlive lastError s).2) /\
    Connect at_call = c /\
    alive at_call = false.
Proof.
  intros Hl Ha Hd.
  pose proof (reconnect_failed closure dial s c e Hl Ha Hd) as Hrun.
  exists (with_Connect c (handle s)). split; [|split; [reflexivity | exact Ha]].
  destruct isAlive as [[|] err].
  - unfold tick, mbind, M_bind. rewrite Hrun. simpl.
    rewrite ?in_app_iff; simpl; auto 10.
  - destruct err as [e'|].
    + unfold tick, mbind, M_bind. rewrite Hrun.
      unfold client, mbind, M_bind, mret, M_ret, emit. cbv beta iota.
      match goal with
      | |- context [checkConnectionLost ?er ?st] =>
          rewrite (checkConnectionLost_run er st) by exact Hl
      end.
      cbn [snd trace handle heap]. rewrite ?in_app_iff; simpl; auto 10.
    + unfold tick, mbind at 1, M_bind at 1. rewrite Hrun.
      destruct s as [l hp tr]; simpl in *. run. rewrite Hl. simpl.
      rewrite ?in_app_iff; simpl; auto 10.
Qed.

Lemma tick_unreachable_witness :
  exists at_call,
    In (EvClient Connect_IsAlive, at_call)
       (trace (tick quiet dial_refused (true, None) no_error (start lost_handle)).2) /\
    Connect at_call = None /\
    alive at_call = false.
Proof.
  apply (tick_unreachable quiet dial_refused (true, None) no_error
           (start lost_handle) None (LibvirtError system_error)
           eq_refl eq_refl eq_refl).
Defined.

Lemma MonitorConnection_runs closure
    (answers : list (Dialer * (bool * error) * libvirt_go.Error)) : forall s : State,
  (forall cb, passive closure cb) ->
  Forall (fun a => connects a.1.1) answers ->
  reconnectLock (handle s) = Unlocked ->
  stop (handle s) <> ChanClosed ->
  Connect (handle s) <> None ->
  exists s' t,
    MonitorConnection closure answers s = (Return tt, s') /\
    trace s' = trace s ++ t /\
    length (List.filter is_alive_query t) = length answers /\
    stop (handle s') = stop (handle s) /\
    reconnectLock (handle s') = Unlocked /\
    Connect (handle s') <> None.
Proof.
  induction answers as [|a rest IH]; intros s Hp Hok Hl Hst Hc.
  - exists s, []. simpl. rewrite app_nil_r. repeat split; assumption.
  - apply Forall_cons in Hok as [Ha Hrest].
    destruct (tick_returns closure a.1.1 a.1.2 a.2 s Hl)
      as (s1 & t1 & Hrun & Htr & Hq & Hlk & Hstop & _ & Hc1).
    { apply Forall_forall. intros cb _. apply Hp. }
    assert (Connect (handle s1) <> None) as Hc1'.
    { rewrite Hc1. destruct (alive (handle s)); [exact Hc|].
      destruct (Ha (uri (handle s)) (user (handle s)) (pass (handle s))) as [c ->].
      discriminate. }
    destruct (IH s1 Hp Hrest Hlk) as (s2 & t2 & Hrun2 & Htr2 & Hq2 & Hstop2 & Hlk2 & Hc2);
      [rewrite Hstop; exact Hst | exact Hc1' |].
    exists s2, (t1 ++ t2).
    split.
    + simpl. unfold mbind at 1, M_bind at 1, get_handle.
      destruct (stop (handle s)) eqn:E; try (now destruct Hst);
        unfold mbind, M_bind; rewrite Hrun; exact Hrun2.
    + rewrite Htr2, Htr, <- app_assoc. split; [reflexivity|].
      rewrite List.filter_app, length_app, Hq, Hq2.
      repeat split; try assumption. congruence.
Qed.

(** As long as [l.stop] is not closed, with a session at hand, a client
    that accepts the reconnects and callbacks that return, the watchdog runs
    every tick it is given, asks the session once per tick, leaves the mutex
    free and never touches [l.stop]. *)
Theorem MonitorConnection_ticks closure
    (answers : list (Dialer * (bool * error) * libvirt_go.Error)) (s : State) :
  (forall cb, passive closure cb) ->
  Forall (fun a => connects a.1.1) answers ->
  reconnectLock (handle s) = Unlocked ->
  stop (handle s) <> ChanClosed ->
  Connect (handle s) <> None ->
  exists s' t,
    MonitorConnection closure answers s = (Return tt, s') /\
    trace s' = trace s ++ t /\
    length (List.filter is_alive_query t) = length answers /\
    stop (handle s') = stop (handle s) /\
    reconnectLock (handle s') = Unlocked.
Proof.
  intros Hp Hok Hl Hst Hc.
  destruct (MonitorConnection_runs closure answers s Hp Hok Hl Hst Hc)
    as (s' & t & H1 & H2 & H3 & H4 & H5 & _).
  exists s', t. repeat split; assumption.
Qed.

Lemma MonitorConnection_ticks_witness :
  exists s' t,
    MonitorConnection quiet
      [(dial_ok, (true, None), no_error); (dial_ok, (false, None), no_error);
       (dial_ok, (false, Some (LibvirtError rpc_error)), rpc_error)]
      (start lost_handle) = (Return tt, s') /\
    trace s' = t /\
    length (List.filter is_alive_query t) = 3%nat.
Proof.
  destruct (MonitorConnection_ticks quiet
              [(dial_ok, (true, None), no_error); (dial_ok, (false, None), no_error);
               (dial_ok, (false, Some (LibvirtError rpc_error)), rpc_error)]
              (start lost_handle))
    as (s' & t & Hrun & Ht & Hq & _).
  - intros cb c d e s. reflexivity.
  - repeat constructor; intros u us p; exists 2%nat; reflexivity.
  - reflexivity.
  - discriminate.
  - discriminate.
  - exists s', t. repeat split; assumption.
Defined.

Lemma MonitorConnection_stopped_witness :
  MonitorConnection quiet [(dial_ok, (false, None), no_error)]
                    (start (with_stop ChanClosed lost_handle)) =
    (Return tt, start (with_stop ChanClosed lost_handle)).
Proof.
  apply (MonitorConnection_stopped quiet [(dial_ok, (false, None), no_error)]
           (start (with_stop ChanClosed lost_handle))).
  reflexivity.
Defined.

(** *** From package virtwrap *)

(** A connection made by [NewHypervisorConnection] has a nil stop channel:
    [Close] on it panics at once, and the watchdog that
    [MonitorHypervisorConnection] starts on it runs every tick it is given. *)
Theorem NewHypervisorConnection_watchdog closure (dials : nat -> Dialer)
    (uri user pass : string) (l : LibvirtConnection) (n : nat)
    (answers : list (Dialer * (bool * error) * libvirt_go.Error)) :
  NewHypervisorConnection dials uri user pass = ((Some l, None), n) ->
  Connect l <> None ->
  (forall cb, passive closure cb) ->
  Forall (fun a => connects a.1.1) answers ->
  stop l = ChanNil /\
  Close (start l) = (Panic "close of nil channel", start l) /\
  exists s' t,
    MonitorHypervisorConnection closure answers (start l) = (Return tt, s') /\
    trace s' = t /\
    length (List.filter is_alive_query t) = length answers.
Proof.
  intros Hnew Hc Hp Hok. unfold NewHypervisorConnection, NewConnection in Hnew.
  destruct (PollImmediate _ _ _ _) as [[e|] v]; [discriminate|].
  injection Hnew as <- _.
  split; [reflexivity|]. split; [reflexivity|].
  unfold MonitorHypervisorConnection.
  match goal with
  | |- context [MonitorConnection _ _ ?st] =>
      destruct (MonitorConnection_runs closure answers st Hp Hok eq_refl)
        as (s' & t & Hrun & Ht & Hq & _); [discriminate | exact Hc |]
  end.
  exists s', t. repeat split; assumption.
Qed.

Lemma NewHypervisorConnection_watchdog_witness :
  exists l,
    NewHypervisorConnection (fun _ => dial_ok) "qemu:///system" "user" "pass" =
      ((Some l, None), 1%nat) /\
    stop l = ChanNil /\
    Close (start l) = (Panic "close of nil channel", start l).
Proof.
  eexists. split; [reflexivity|].
  destruct (NewHypervisorConnection_watchdog quiet (fun _ => dial_ok)
              "qemu:///system" "user" "pass" _ 1%nat [] eq_refl)
    as (Hstop & Hclose & _).
  - discriminate.
  - intros cb c d e s. reflexivity.
  - constructor.
  - split; [exact Hstop | exact Hclose].
Defined.

(** *** The dialer, further *)

(** [NewConnection] returns either a handle and no error or no handle and
    its error around the error of the poll.  A handle it returns is alive,
    unlocked, with an empty registry, the URI and credentials it was given,
    and a stop channel that was never made. *)
Theorem NewConnection_handle (dials : nat -> Dialer) (uri' user' pass' : string) :
  (exists l n,
     NewConnection dials uri' user' pass' = ((Some l, None), n) /\
     alive l = true /\ callbacks l = [] /\ reconnectLock l = Unlocked /\
     stop l = ChanNil /\
     uri l = uri' /\ user l = user' /\
     pass l = pass') \/
  (exists e n,
     NewConnection dials uri' user' pass' =
       ((None, Some (Errorf "cannot connect to libvirt daemon: %v" e)), n)).
Proof.
  unfold NewConnection.
  destruct (PollImmediate _ _ _ _) as [[e|] v].
  - right. eexists _, _. reflexivity.
  - left. eexists _, _. repeat split.
Qed.
